(** * air_pollution.py: AQI banding, context summary, dashboard render and chat

    Shallow embedding of [air_pollution.py].  PM2.5 readings are IEEE-754
    binary64 numbers (Rocq's primitive floats, which are Python's [float] and
    pandas' [float64]); text is [string], one character per code point below
    256; the session chat log is a list of (role, text) pairs. *)

From Stdlib Require Import ZArith Floats Lia Ascii.
From stdpp Require Import base option list strings gmap sorting pretty.

#[local] Set Warnings "-inexact-float,-register-all".

(** ** Floats *)

Module Float.

Definition is_nan (x : float) : bool := PrimFloat.is_nan x.

(** The thresholds of the banding ladder, as the literals of the source. *)
Definition c12 : float := 12%float.
Definition c35_4 : float := 35.4%float.
Definition c55_4 : float := 55.4%float.
Definition c150_4 : float := 150.4%float.
Definition c250_4 : float := 250.4%float.

(** The count of readings as a double, as the division of the mean sees it. *)
Definition of_nat (n : nat) : float :=
  PrimFloat.of_uint63 (Uint63.of_Z (Z.of_nat n)).

(** Nearest integer to [num / den], ties to even ([den] positive). *)
Definition round_half_even (num den : Z) : Z :=
  let q := (num / den)%Z in
  let r := (num mod den)%Z in
  match (2 * r ?= den)%Z with
  | Lt => q
  | Gt => (q + 1)%Z
  | Eq => if Z.even q then q else (q + 1)%Z
  end.

(** The magnitude [m * 2^e] in tenths, correctly rounded. *)
Definition tenths (m : positive) (e : Z) : Z :=
  if (0 <=? e)%Z then (10 * Z.pos m * 2 ^ e)%Z
  else round_half_even (10 * Z.pos m) (2 ^ (- e)).

Definition sign (s : bool) : string := if s then "-" else "".

(** [f"{x:.1f}"]: the exact value of the double rounded to one decimal,
    ties to even. *)
Definition format_1f (x : float) : string :=
  match Prim2SF x with
  | S754_nan => "nan"
  | S754_infinity s => sign s +:+ "inf"
  | S754_zero s => sign s +:+ "0.0"
  | S754_finite s m e =>
      let n := tenths m e in
      sign s +:+ pretty (n / 10)%Z +:+ "." +:+ pretty (n mod 10)%Z
  end.

End Float.

(** ** AQI Bander *)

(** [pd.isna(pm25)]: the argument is [None] (a missing dict entry) or a NaN. *)
Definition isna (pm25 : option float) : bool :=
  match pm25 with
  | None => true
  | Some v => Float.is_nan v
  end.

Definition indicative_aqi (pm25 : option float) : string :=
  match pm25 with
  | None => "Unknown"
  | Some v =>
      if Float.is_nan v then "Unknown"
      else if PrimFloat.leb v Float.c12 then "Good"
      else if PrimFloat.leb v Float.c35_4 then "Moderate"
      else if PrimFloat.leb v Float.c55_4 then "Unhealthy for Sensitive Groups"
      else if PrimFloat.leb v Float.c150_4 then "Unhealthy"
      else if PrimFloat.leb v Float.c250_4 then "Very Unhealthy"
      else "Hazardous"
  end.

(** ** Text *)

Module Str.

(** [str.isspace] on the code points below 256: tab to carriage return,
    the four separators 0x1c..0x1f, space, NEL (0x85) and NBSP (0xa0). *)
Definition isspace (c : ascii) : bool :=
  match c with
  | "009" | "010" | "011" | "012" | "013"
  | "028" | "029" | "030" | "031" | " " | "133" | "160" => true
  | _ => false
  end%char.

Fixpoint lstrip (s : string) : string :=
  match s with
  | "" => ""
  | String c s' => if isspace c then lstrip s' else s
  end.

Fixpoint rstrip (s : string) : string :=
  match s with
  | "" => ""
  | String c s' =>
      match rstrip s' with
      | "" => if isspace c then "" else String c ""
      | r => String c r
      end
  end.

(** [s.strip()] *)
Definition strip (s : string) : string := rstrip (lstrip s).

(** Truth value of a [str]: non-empty. *)
Definition truthy (s : string) : bool :=
  match s with "" => false | _ => true end.

(** Empty, or whitespace only. *)
Fixpoint blank (s : string) : bool :=
  match s with
  | "" => true
  | String c s' => isspace c && blank s'
  end.

(** [needle in s] *)
Definition contains (needle s : string) : Prop :=
  ∃ pre suf : string, s = pre +:+ needle +:+ suf.

Definition nl : string := String "010"%char "".

End Str.

(** ** Measurement table *)

(** One row of the table [fetch_openaq] builds.  A null cell is [None]; a
    null [value] is a NaN, as pandas stores it in a float column; [datetime]
    counts nanoseconds since the epoch, [None] being [NaT]. *)
Record row : Type :=
  { datetime : option Z;
    location : option string;
    parameter : option string;
    value : float;
    unit : option string }.

Abbreviation DataFrame := (list row).

(** [df.empty] *)
Definition empty (df : DataFrame) : bool :=
  match df with [] => true | _ => false end.

(** ** pandas: grouped mean and pivot *)

Module Pandas.

(** The running state of the grouped mean: the number of non-null readings
    and their compensated (Kahan) sum. *)
Record acc : Type :=
  { nobs : nat; sumx : float; compensation : float }.

Definition mean_step (a : acc) (val : float) : acc :=
  if Float.is_nan val then a
  else
    let y := (val - compensation a)%float in
    let t := (sumx a + y)%float in
    let c := (t - sumx a - y)%float in
    {| nobs := S (nobs a);
       sumx := t;
       compensation := if Float.is_nan c then 0%float else c |}.

(** [aggfunc="mean"]: nulls are skipped; a group with no reading left has
    mean NaN. *)
Definition mean (vals : list float) : float :=
  let a := foldl mean_step {| nobs := 0; sumx := 0; compensation := 0 |} vals in
  match nobs a with
  | 0 => PrimFloat.nan
  | S _ => (sumx a / Float.of_nat (nobs a))%float
  end.

(** The group key of a row; rows with a null key belong to no group. *)
Definition key_of (r : row) : option (Z * string) :=
  t ← datetime r; p ← parameter r; Some (t, p).

(** The readings of the group [k], in row order. *)
Definition group (df : DataFrame) (k : Z * string) : list float :=
  value <$> filter (λ r, key_of r = Some k) df.

(** The keys of the groups (pandas lists them in ascending order; the pivot
    below orders its index itself). *)
Definition keys (df : DataFrame) : list (Z * string) :=
  remove_dups (omap key_of df).

(** [groupby(["datetime", "parameter"]).agg("mean").dropna(how="all")]:
    one mean per group, the groups whose mean is null dropped. *)
Definition agged (df : DataFrame) : list ((Z * string) * float) :=
  filter (λ kv, Float.is_nan kv.2 = false) ((λ k, (k, mean (group df k))) <$> keys df).

(** The pivoted table: one record per timestamp that kept a group, in
    ascending order; each record has every column that kept a group, with
    NaN where the timestamp has no mean for it. *)
Definition index (agg : list ((Z * string) * float)) : list Z :=
  merge_sort (≤)%Z (remove_dups (agg.*1.*1)).

Definition columns (agg : list ((Z * string) * float)) : list string :=
  remove_dups (agg.*1.*2).

Definition cell (agg : list ((Z * string) * float)) (t : Z) (p : string) : float :=
  default PrimFloat.nan ((list_to_map agg : gmap (Z * string) float) !! (t, p)).

Definition record (agg : list ((Z * string) * float)) (t : Z) : gmap string float :=
  list_to_map ((λ p, (p, cell agg t p)) <$> columns agg).

Definition pivot_table (df : DataFrame) : list (Z * gmap string float) :=
  let agg := agged df in
  (λ t, (t, record agg t)) <$> index agg.

(** [.sort_index()] *)
Definition index_le (a b : Z * gmap string float) : Prop := (a.1 ≤ b.1)%Z.

Global Instance index_le_dec : RelDecision index_le := λ a b, decide (a.1 ≤ b.1)%Z.

Definition sort_index (table : list (Z * gmap string float)) : list (Z * gmap string float) :=
  merge_sort index_le table.

(** [.tail(1)] with [.to_dict(orient="records")]: the records of the last
    row, if any. *)
Definition tail_records (table : list (Z * gmap string float)) : list (gmap string float) :=
  match last table with
  | Some r => [r.2]
  | None => []
  end.

End Pandas.

(** ** Context summarizer *)

(** [k.upper()], for the ASCII keys the summarizer uses. *)
Definition upper_char (c : ascii) : ascii :=
  let n := nat_of_ascii c in
  if (97 <=? n)%nat && (n <=? 122)%nat then ascii_of_nat (n - 32) else c.

Fixpoint upper (s : string) : string :=
  match s with
  | "" => ""
  | String c s' => String (upper_char c) (upper s')
  end.

(** [sep.join(parts)] *)
Fixpoint join (sep : string) (parts : list string) : string :=
  match parts with
  | [] => ""
  | [p] => p
  | p :: ps => p +:+ sep +:+ join sep ps
  end.

Definition tracked : list string := ["pm25"; "pm10"; "no2"; "o3"; "so2"].

Definition no_data : string := "No recent measurements found.".

(** [latest_vals] of line 112. *)
Definition latest_vals (df : DataFrame) : gmap string float :=
  let pivot := Pandas.sort_index (Pandas.pivot_table df) in
  match Pandas.tail_records pivot with
  | r :: _ => r
  | [] => ∅
  end.

(** One turn of the loop of lines 116-118. *)
Definition add_part (vals : gmap string float) (parts : list string) (k : string) : list string :=
  match vals !! k with
  | Some v =>
      if negb (Float.is_nan v)
      then parts ++ [upper k +:+ "=" +:+ Float.format_1f v]
      else parts
  | None => parts
  end.

(** [parts] when the loop is done. *)
Definition summary_parts (df : DataFrame) : list string :=
  let vals := latest_vals df in
  let pm25 := vals !! "pm25" in
  let aqi_band := indicative_aqi pm25 in
  foldl (add_part vals) ["Latest indicative AQI (by PM2.5): " +:+ aqi_band] tracked.

Definition compose_context_summary (df : DataFrame) : string :=
  if empty df then no_data
  else join "; " (summary_parts df).

(** ** The summary as the specification describes it *)

(** Second definition, read off the rows of the table instead of a pivoted
    table; [header] is the text in front of the band. *)
Module Described.

(** The readings of pollutant [k] taken at instant [t]. *)
Definition readings (df : DataFrame) (t : Z) (k : string) : list float :=
  omap (λ r, if decide (datetime r = Some t ∧ parameter r = Some k)
             then Some (value r) else None) df.

(** Duplicate readings are averaged. *)
Definition averaged (df : DataFrame) (t : Z) (k : string) : float :=
  Pandas.mean (readings df t k).

(** A row counts towards the grouped table when its keys are there and its
    pollutant has a non-null average at its instant. *)
Definition reports (df : DataFrame) (r : row) : option Z :=
  match datetime r, parameter r with
  | Some t, Some k => if Float.is_nan (averaged df t k) then None else Some t
  | _, _ => None
  end.

Definition later (t : Z) (acc : option Z) : option Z :=
  match acc with
  | Some u => Some (Z.max t u)
  | None => Some t
  end.

(** The latest instant among the rows of [part] that count. *)
Definition latest_in (df part : DataFrame) : option Z :=
  foldr (λ r acc, match reports df r with Some t => later t acc | None => acc end)
        None part.

(** The chronologically latest instant of the grouped table: the latest
    instant at which some pollutant has a non-null average.  An instant whose
    readings are all null has no row in the grouped table and is skipped. *)
Definition latest_timestamp (df : DataFrame) : option Z := latest_in df df.

(** The latest instant among all the rows of [part] that have both keys,
    null readings included: the latest timestamp of the table itself. *)
Definition latest_keyed (part : DataFrame) : option Z :=
  foldr (λ r acc, match datetime r, parameter r with
                  | Some t, Some _ => later t acc
                  | _, _ => acc
                  end) None part.

(** The field of pollutant [k], when it is present and non-null. *)
Definition field (df : DataFrame) (t : Z) (k : string) : option string :=
  let v := averaged df t k in
  if Float.is_nan v then None
  else Some (upper k +:+ "=" +:+ Float.format_1f v).

Definition summary (header : string) (df : DataFrame) : string :=
  match latest_timestamp df with
  | Some t =>
      join "; " ((header +:+ indicative_aqi (Some (averaged df t "pm25")))
                 :: omap (field df t) tracked)
  | None => header +:+ indicative_aqi None
  end.

End Described.

(** ** Exceptions *)

(** The outcome of a call that may raise: a value, or an exception carried
    by its message, [str(e)]. *)
Inductive exc (A : Type) : Type :=
  | Return (a : A)
  | Raise (e : string).
Arguments Return {A} a.
Arguments Raise {A} e.

Global Instance exc_ret : MRet exc := λ A a, Return a.

Global Instance exc_bind : MBind exc := λ A B k m,
  match m with
  | Return a => k a
  | Raise e => Raise e
  end.

(** ** Measurement fetcher *)

(** A decoded JSON document, as [r.json()] returns it. *)
Inductive json : Type :=
  | JNull
  | JBool (b : bool)
  | JInt (n : Z)
  | JFloat (x : float)
  | JStr (s : string)
  | JArr (items : list json)
  | JObj (fields : list (string * json)).

Module Json.

(** [type(v).__name__] *)
Definition type_name (v : json) : string :=
  match v with
  | JNull => "NoneType"
  | JBool _ => "bool"
  | JInt _ => "int"
  | JFloat _ => "float"
  | JStr _ => "str"
  | JArr _ => "list"
  | JObj _ => "dict"
  end.

(** Truth value of a Python object. *)
Definition truthy (v : json) : bool :=
  match v with
  | JNull => false
  | JBool b => b
  | JInt n => negb (n =? 0)%Z
  | JFloat x => negb (PrimFloat.eqb x 0%float)
  | JStr s => Str.truthy s
  | JArr items => match items with [] => false | _ => true end
  | JObj fields => match fields with [] => false | _ => true end
  end.

(** Lookup in a decoded object; of two equal keys the later one stays. *)
Fixpoint lookup (key : string) (fields : list (string * json)) : option json :=
  match fields with
  | [] => None
  | (k, v) :: rest =>
      match lookup key rest with
      | Some w => Some w
      | None => if decide (k = key) then Some v else None
      end
  end.

Definition no_attribute (v : json) (attr : string) : string :=
  "'" +:+ type_name v +:+ "' object has no attribute '" +:+ attr +:+ "'".

(** [v.get(key, default)] *)
Definition get (v : json) (key : string) (default : json) : exc json :=
  match v with
  | JObj fields => Return (from_option id default (lookup key fields))
  | _ => Raise (no_attribute v "get")
  end.

(** The items a [for] loop draws from [v]. *)
Definition iterate (v : json) : exc (list json) :=
  match v with
  | JArr items => Return items
  | JObj fields => Return (JStr <$> remove_dups fields.*1)
  | JStr s => Return ((λ c, JStr (String c "")) <$> String.list_ascii_of_string s)
  | _ => Raise ("'" +:+ type_name v +:+ "' object is not iterable")
  end.

End Json.

(** The response object of [requests.get]; [body] is what [r.json()] gives. *)
Record http_response : Type :=
  { status_code : Z;
    reason : string;
    url : string;
    body : exc json }.

(** [r.raise_for_status()] *)
Definition raise_for_status (r : http_response) : exc Datatypes.unit :=
  if bool_decide (400 ≤ status_code r < 500)%Z then
    Raise (pretty (status_code r) +:+ " Client Error: " +:+ reason r +:+
           " for url: " +:+ url r)
  else if bool_decide (500 ≤ status_code r < 600)%Z then
    Raise (pretty (status_code r) +:+ " Server Error: " +:+ reason r +:+
           " for url: " +:+ url r)
  else Return tt.

(** One dict of [rows], lines 69-75. *)
Record raw_row : Type :=
  { raw_datetime : json;
    raw_location : json;
    raw_parameter : json;
    raw_value : json;
    raw_unit : json }.

Definition row_of_item (item : json) : exc raw_row :=
  date ← Json.get item "date" (JObj []);
  utc ← Json.get date "utc" JNull;
  location ← Json.get item "location" JNull;
  parameter ← Json.get item "parameter" JNull;
  value ← Json.get item "value" JNull;
  unit ← Json.get item "unit" JNull;
  Return {| raw_datetime := utc; raw_location := location;
            raw_parameter := parameter; raw_value := value; raw_unit := unit |}.

Fixpoint rows_of_items (items : list json) : exc (list raw_row) :=
  match items with
  | [] => Return []
  | item :: rest =>
      r ← row_of_item item;
      rs ← rows_of_items rest;
      Return (r :: rs)
  end.

Section fetcher.

(** [pd.DataFrame(rows)] followed by [pd.to_datetime] on the datetime
    column: the typing of the columns and the parsing of the timestamps are
    pandas' own. *)
Variable frame_of_rows : list raw_row → exc DataFrame.

(** [fetch_openaq], from the answer [http] of [requests.get] on. *)
Definition fetch_openaq (http : exc http_response) : exc DataFrame :=
  r ← http;
  _ ← raise_for_status r;
  doc ← body r;
  data ← Json.get doc "results" (JArr []);
  if negb (Json.truthy data) then Return []
  else
    items ← Json.iterate data;
    rows ← rows_of_items items;
    frame_of_rows rows.

End fetcher.

(** The fetch fails at the HTTP layer: [requests.get] raised (no connection,
    timeout), or the status is a client or server error. *)
Definition http_failure (http : exc http_response) : Prop :=
  match http with
  | Raise _ => True
  | Return r => (400 ≤ status_code r < 600)%Z
  end.

(** ** The running script *)

Inductive widget : Type :=
  | StatusWarning (msg : string)
  | StatusSuccess (msg : string)
  | StatusError (msg : string)
  | LineChart (title : string) (data : DataFrame)
  | BarChart (title : string) (data : list (string * float))
  | Metric (label value : string)
  | Markdown (body : string).

(** What a run of the script reads and writes: its variable [df] (unbound
    when [None]), the widgets drawn so far, the chat log kept in
    [st.session_state], and the prompts sent to the LLM API. *)
Record state : Type :=
  { local_df : option DataFrame;
    screen : list widget;
    chat_history : list (string * string);
    api_calls : list string }.

(** A piece of the script: it changes the state and returns or raises; what
    it changed before raising stays changed. *)
Definition script (A : Type) : Type := state → exc A * state.

Global Instance script_ret : MRet script := λ A a w, (Return a, w).

Global Instance script_bind : MBind script := λ A B k m w,
  match m w with
  | (Return a, w') => k a w'
  | (Raise e, w') => (Raise e, w')
  end.

Definition lift {A} (m : exc A) : script A := λ w, (m, w).

Definition raise {A} (e : string) : script A := λ w, (Raise e, w).

(** [try: body except Exception as e: handler(e)] *)
Definition try_except {A} (body : script A) (handler : string → script A) : script A :=
  λ w, match body w with
       | (Return a, w') => (Return a, w')
       | (Raise e, w') => handler e w'
       end.

Definition draw (x : widget) : script Datatypes.unit := λ w,
  (Return tt,
   {| local_df := local_df w; screen := screen w ++ [x];
      chat_history := chat_history w; api_calls := api_calls w |}).

(** [df = ...] *)
Definition assign_df (df : DataFrame) : script Datatypes.unit := λ w,
  (Return tt,
   {| local_df := Some df; screen := screen w;
      chat_history := chat_history w; api_calls := api_calls w |}).

(** [df if 'df' in locals() else pd.DataFrame()] *)
Definition df_or_empty : script DataFrame := λ w,
  (Return (default [] (local_df w)), w).

(** [st.session_state.chat_history.append(entry)] *)
Definition append_chat (entry : string * string) : script Datatypes.unit := λ w,
  (Return tt,
   {| local_df := local_df w; screen := screen w;
      chat_history := chat_history w ++ [entry]; api_calls := api_calls w |}).

Definition read_chat : script (list (string * string)) := λ w,
  (Return (chat_history w), w).

(** A fresh run of the script: nothing bound, nothing drawn. *)
Definition fresh_run (history : list (string * string)) (calls : list string) : state :=
  {| local_df := None; screen := []; chat_history := history; api_calls := calls |}.

(** ** Dashboard *)

(** [df[df["parameter"].isin(["pm25", "pm10"])]] *)
Definition pm_rows (df : DataFrame) : DataFrame :=
  filter (λ r, parameter r = Some "pm25" ∨ parameter r = Some "pm10") df.

(** [df.groupby("parameter")["value"].mean().reset_index()] *)
Definition mean_by_parameter (df : DataFrame) : list (string * float) :=
  (λ p, (p, Pandas.mean (value <$> filter (λ r, parameter r = Some p) df)))
    <$> merge_sort String.le (remove_dups (omap parameter df)).

(** [s.split(';')[0]] *)
Fixpoint before_semicolon (s : string) : string :=
  match s with
  | "" => ""
  | String c s' => if decide (c = ";"%char) then "" else String c (before_semicolon s')
  end.

(** The [try] body of lines 131-153; [fetched] is what [fetch_openaq] did. *)
Definition try_fetch (fetched : exc DataFrame) : script Datatypes.unit :=
  df ← lift fetched;
  assign_df df;;
  if empty df then draw (StatusWarning "No data for selected inputs.")
  else
    draw (StatusSuccess ("Fetched " +:+ pretty (length df) +:+ " measurements."));;
    let pm_df := pm_rows df in
    (if negb (empty pm_df)
     then draw (LineChart "PM2.5 and PM10 over time" pm_df)
     else mret tt);;
    let agg := mean_by_parameter df in
    draw (BarChart "Average pollutant concentrations" agg).

(** Lines 128-161; the value is [ctx_summary]. *)
Definition render_dashboard (fetched : exc DataFrame) : script string :=
  try_except (try_fetch fetched)
             (λ e, draw (StatusError ("Data fetch error: " +:+ e)));;
  df ← df_or_empty;
  let ctx_summary := compose_context_summary df in
  draw (Metric "Summary" (if Str.truthy ctx_summary
                          then before_semicolon ctx_summary
                          else "Unknown"));;
  mret ctx_summary.

(** ** Chat orchestrator *)

(** The [text] attribute of a response object, as [hasattr] and the
    attribute access see it: missing, raising on access, or a string. *)
Inductive attribute : Type :=
  | NoAttribute
  | AttributeRaises (e : string)
  | Attribute (s : string).

Record response : Type := { text : attribute }.

(** [genai.GenerativeModel]: the one method the script calls, as the answer
    of the service to each prompt. *)
Record GenerativeModel : Type :=
  { generate_content : string → exc response }.

(** Lines 23-35: the model stays [None] unless the key is truthy and the
    constructor returns. *)
Definition setup_model (GEMINI_KEY : option string)
    (new_model : exc GenerativeModel) : option GenerativeModel :=
  match GEMINI_KEY with
  | Some key =>
      if Str.truthy key then
        match new_model with
        | Return m => Some m
        | Raise _ => None
        end
      else None
  | None => None
  end.

Definition system_prompt : string :=
  "You are an air quality assistant. Explain AQI categories, health effects, and safe actions " +:+
  "in clear, concise terms. Use the provided context when relevant. If the AQI is 'Unknown', " +:+
  "suggest checking more locations or time ranges. Avoid medical advice; keep it general.".

Definition final_prompt (city context user_msg : string) : string :=
  system_prompt +:+ Str.nl +:+ Str.nl +:+
  "Context for city '" +:+ city +:+ "': " +:+ context +:+ Str.nl +:+ Str.nl +:+
  "User: " +:+ user_msg +:+ Str.nl +:+ "Assistant:".

Definition not_configured : string :=
  "Gemini is not configured. Please set GEMINI_API_KEY.".

(** [model.generate_content(prompt)]: the call to the LLM API. *)
Definition call_generate_content (m : GenerativeModel) (prompt : string) : script response :=
  λ w,
  (generate_content m prompt,
   {| local_df := local_df w; screen := screen w;
      chat_history := chat_history w; api_calls := api_calls w ++ [prompt] |}).

(** The body of the [try] of lines 192-197. *)
Definition ask_model (model : option GenerativeModel) (prompt : string) : script string :=
  match model with
  | Some m =>
      resp ← call_generate_content m prompt;
      match text resp with
      | NoAttribute => mret "No response."
      | AttributeRaises e => raise e
      | Attribute s => mret (Str.strip s)
      end
  | None => mret not_configured
  end.

(** Lines 183-200, with the button state [send]. *)
Definition chat_submit (model : option GenerativeModel) (city ctx_summary : string)
    (send : bool) (user_msg : string) : script Datatypes.unit :=
  if send && Str.truthy (Str.strip user_msg) then
    append_chat ("user", user_msg);;
    let context := ctx_summary in
    let prompt := final_prompt city context user_msg in
    answer ← try_except (ask_model model prompt)
                        (λ e, mret ("Model error: " +:+ e));
    append_chat ("assistant", answer)
  else mret tt.

(** Lines 203-207. *)
Definition show_entry (entry : string * string) : widget :=
  if decide (entry.1 = "user") then Markdown ("**You:** " +:+ entry.2)
  else Markdown ("**Assistant:** " +:+ entry.2).

Fixpoint show_entries (entries : list (string * string)) : script Datatypes.unit :=
  match entries with
  | [] => mret tt
  | entry :: rest => draw (show_entry entry);; show_entries rest
  end.

Definition show_chat : script Datatypes.unit :=
  history ← read_chat; show_entries history.

(** One run of the script from the dashboard on. *)
Definition run (fetched : exc DataFrame) (model : option GenerativeModel)
    (city : string) (send : bool) (user_msg : string) : script Datatypes.unit :=
  ctx_summary ← render_dashboard fetched;
  chat_submit model city ctx_summary send user_msg;;
  show_chat.

(** The reply of the handler to a prompt, apart from its effects: the answer
    of the [try] body, or the text of the [except] clause. *)
Definition answer_for (model : option GenerativeModel) (prompt : string) : string :=
  match model with
  | Some m =>
      match generate_content m prompt with
      | Return resp =>
          match text resp with
          | NoAttribute => "No response."
          | AttributeRaises e => "Model error: " +:+ e
          | Attribute s => Str.strip s
          end
      | Raise e => "Model error: " +:+ e
      end
  | None => not_configured
  end.

(** The prompts the handler sends: one when there is a model, else none. *)
Definition prompts_sent (model : option GenerativeModel) (prompt : string) : list string :=
  match model with
  | Some _ => [prompt]
  | None => []
  end.

(** ** Sample inputs *)

Module Sample.

Definition reading (t : Z) (k : string) (v : float) : row :=
  {| datetime := Some t; location := Some "Jaipur"; parameter := Some k;
     value := v; unit := Some "ug/m3" |}.

(** One timestamp with pm25 = 10.0 and no2 = 20.0, whatever the instant and
    the other cells. *)
Definition two_readings (t : Z) (loc1 loc2 unit1 unit2 : option string) : DataFrame :=
  [ {| datetime := Some t; location := loc1; parameter := Some "pm25";
       value := 10.0%float; unit := unit1 |};
    {| datetime := Some t; location := loc2; parameter := Some "no2";
       value := 20.0%float; unit := unit2 |} ].

Definition one_timestamp : DataFrame :=
  [reading 1700000000 "pm25" 10.0%float; reading 1700000000 "no2" 20.0%float].

(** Two hours of readings with a duplicate, a null and an untracked pollutant. *)
Definition two_hours : DataFrame :=
  [reading 7200 "pm25" 36.25%float; reading 7200 "pm25" 40.0%float;
   reading 7200 "o3" PrimFloat.nan; reading 7200 "co" 1.5%float;
   reading 3600 "pm10" 80.0%float; reading 3600 "o3" 12.0%float].

(** The latest hour has a null PM2.5 reading only. *)
Definition null_latest : DataFrame :=
  [reading 7200 "pm25" PrimFloat.nan; reading 3600 "pm25" 10.0%float].

(** The first run of a session, and a run after one exchange. *)
Definition fresh : state := fresh_run [] [].

Definition earlier : state :=
  fresh_run [("user", "hi"); ("assistant", "Hello.")] ["p"].

Definition failing_model : GenerativeModel :=
  {| generate_content := λ _, Raise "429 quota exceeded" |}.

Definition mute_model : GenerativeModel :=
  {| generate_content := λ _, Return {| text := NoAttribute |} |}.

Definition endpoint : string := "https://api.openaq.org/v2/measurements".

Definition server_error : http_response :=
  {| status_code := 500; reason := "Internal Server Error"; url := endpoint;
     body := Raise "Expecting value: line 1 column 1 (char 0)" |}.

Definition multiple_choices : http_response :=
  {| status_code := 300; reason := "Multiple Choices"; url := endpoint;
     body := Return (JObj [("results", JArr [])]) |}.

(** A stand-in for pandas' constructor: every row is read as null. *)
Definition null_frame (rows : list raw_row) : exc DataFrame :=
  Return ((λ _, {| datetime := None; location := None; parameter := None;
                   value := PrimFloat.nan; unit := None |}) <$> rows).

End Sample.

(** ** Notions used to state further properties *)

(** The rank of a band in the ladder, "Good" first; any other label last. *)
Definition severity (band : string) : nat :=
  if decide (band = "Good") then 0
  else if decide (band = "Moderate") then 1
  else if decide (band = "Unhealthy for Sensitive Groups") then 2
  else if decide (band = "Unhealthy") then 3
  else if decide (band = "Very Unhealthy") then 4
  else if decide (band = "Hazardous") then 5
  else 6.

(** An item the loop of lines 68-75 reads without raising: a dict whose
    "date", when it has one, is a dict. *)
Definition well_formed_item (item : json) : Prop :=
  match item with
  | JObj fields =>
      match Json.lookup "date" fields with
      | None | Some (JObj _) => True
      | Some _ => False
      end
  | _ => False
  end.

(** The status passes [raise_for_status]. *)
Definition status_ok (r : http_response) : Prop :=
  ¬ (400 ≤ status_code r < 600)%Z.

(** What the [try] of the dashboard leaves on the screen. *)
Definition status_widgets (fetched : exc DataFrame) : list widget :=
  match fetched with
  | Raise e => [StatusError ("Data fetch error: " +:+ e)]
  | Return df =>
      if empty df then [StatusWarning "No data for selected inputs."]
      else
        StatusSuccess ("Fetched " +:+ pretty (length df) +:+ " measurements.")
        :: (if empty (pm_rows df) then []
            else [LineChart "PM2.5 and PM10 over time" (pm_rows df)])
        ++ [BarChart "Average pollutant concentrations" (mean_by_parameter df)]
  end.

(** A row without a timestamp or without a pollutant. *)
Definition keyless (r : row) : Prop := datetime r = None ∨ parameter r = None.

(** ** The request of the fetcher *)

(** A value of the query parameters of the request. *)
Inductive param : Type :=
  | PStr (s : string)
  | PInt (n : Z)
  | PTimestamp (t : Z).

Definition nanoseconds_per_hour : Z := 3600 * 10 ^ 9.

Section request.

(** [pd.Timestamp.isoformat] *)
Variable isoformat : Z → string.

(** Lines 46-60: [params] when the request is sent; [now1] and [now2] are
    the two readings of the clock, in nanoseconds. *)
Definition request_params (city country : string) (hours now1 now2 : Z) : gmap string param :=
  let date_from := (now1 - hours * nanoseconds_per_hour)%Z in
  let date_to := now2 in
  let params : gmap string param :=
    {[ "city" := PStr city;
       "limit" := PInt 1000;
       "page" := PInt 1;
       "offset" := PInt 0;
       "sort" := PStr "desc";
       "order_by" := PStr "datetime";
       "date_from" := PTimestamp date_from;
       "date_to" := PTimestamp date_to ]} in
  let params :=
    if Str.truthy (Str.strip country)
    then <["country" := PStr (Str.strip country)]> params
    else params in
  let params := <["date_from" := PStr (isoformat date_from +:+ "Z")]> params in
  <["date_to" := PStr (isoformat date_to +:+ "Z")]> params.

End request.

(** ** More sample inputs *)

Module More.

Definition ok_response (doc : json) : http_response :=
  {| status_code := 200; reason := "OK"; url := Sample.endpoint; body := Return doc |}.

Definition item_full : json :=
  JObj [("date", JObj [("utc", JStr "2024-01-01T00:00:00+00:00")]);
        ("location", JStr "Jaipur"); ("parameter", JStr "pm25");
        ("value", JFloat 10.0%float); ("unit", JStr "ug/m3")].

(** An item with nothing but a pollutant. *)
Definition item_bare : json := JObj [("parameter", JStr "no2")].

(** An item whose date is an explicit null. *)
Definition item_null_date : json :=
  JObj [("date", JNull); ("parameter", JStr "pm25"); ("value", JInt 3)].

Definition results (items : list json) : list (string * json) :=
  [("meta", JObj []); ("results", JArr items)].

(** A model that answers with padded text. *)
Definition padded_model : GenerativeModel :=
  {| generate_content := λ _, Return {| text := Attribute "  Stay indoors.  " |} |}.

(** The latest hour reports carbon monoxide only. *)
Definition carbon_monoxide_last : DataFrame :=
  [Sample.reading 7200 "co" 0.4%float; Sample.reading 3600 "pm25" 10.0%float].

Definition keyless_row : row :=
  {| datetime := None; location := Some "Jaipur"; parameter := Some "pm25";
     value := 500.0%float; unit := None |}.

End More.

(** * Properties *)

(** ** Comparison facts on binary64 *)

Section float_order.

Lemma compare_cont_flip (p q : positive) :
  Pos.compare_cont Eq q p = CompOpp (Pos.compare_cont Eq p q).
Proof. symmetry. apply (Pos.compare_cont_antisym p q Eq). Qed.

Lemma SFcompare_Lt_Gt x y :
  SFcompare x y = Some Lt → SFcompare y x = Some Gt.
Proof.
  destruct x as [sx|sx| |sx mx ex], y as [sy|sy| |sy my ey]; simpl;
    try discriminate; try (by destruct sx); try (by destruct sy);
    try (by destruct sx, sy).
  rewrite (Z.compare_antisym ex ey), (compare_cont_flip mx my).
  destruct sx, sy; try done;
    destruct (ex ?= ey)%Z; simpl; try done;
    by destruct (Pos.compare_cont Eq mx my).
Qed.

Lemma ltb_leb_false (a v : float) :
  PrimFloat.ltb a v = true → PrimFloat.leb v a = false.
Proof.
  rewrite FloatAxioms.ltb_spec, FloatAxioms.leb_spec. unfold SFltb, SFleb.
  destruct (SFcompare (Prim2SF a) (Prim2SF v)) as [[]|] eqn:E; try discriminate.
  intros _. by rewrite (SFcompare_Lt_Gt _ _ E).
Qed.

Lemma leb_not_nan (v a : float) :
  PrimFloat.leb v a = true → Float.is_nan v = false.
Proof.
  unfold Float.is_nan, PrimFloat.is_nan.
  rewrite FloatAxioms.leb_spec, FloatAxioms.eqb_spec. unfold SFleb, SFeqb.
  destruct (Prim2SF v) as [s|s| |s m e]; simpl; try done.
  - by destruct s.
  - rewrite Z.compare_refl, Pos.compare_cont_refl. by destruct s.
Qed.

Lemma ltb_not_nan (a v : float) :
  PrimFloat.ltb a v = true → Float.is_nan v = false.
Proof.
  unfold Float.is_nan, PrimFloat.is_nan.
  rewrite FloatAxioms.ltb_spec, FloatAxioms.eqb_spec. unfold SFltb, SFeqb.
  destruct (Prim2SF v) as [s|s| |s m e]; simpl; try done.
  - by destruct s.
  - by destruct (Prim2SF a) as [| | |].
  - rewrite Z.compare_refl, Pos.compare_cont_refl. by destruct s.
Qed.

End float_order.

(** ** The banding ladder *)

Section bander.

Lemma SF_neg_below_pos x m e :
  SFltb x (S754_zero false) = true → SFleb x (S754_finite false m e) = true.
Proof.
  unfold SFltb, SFleb.
  destruct x as [s|s| |s mx ex]; simpl; try done; by destruct s.
Qed.

Lemma ltb_zero_leb_c12 (v : float) :
  PrimFloat.ltb v 0%float = true → PrimFloat.leb v Float.c12 = true.
Proof.
  rewrite FloatAxioms.ltb_spec, FloatAxioms.leb_spec.
  replace (Prim2SF 0%float) with (S754_zero false) by (vm_compute; reflexivity).
  replace (Prim2SF Float.c12) with (S754_finite false 6755399441055744 (-49))
    by (vm_compute; reflexivity).
  apply SF_neg_below_pos.
Qed.

Lemma band_good v :
  PrimFloat.leb v Float.c12 = true → indicative_aqi (Some v) = "Good".
Proof.
  intros H. unfold indicative_aqi. by rewrite (leb_not_nan _ _ H), H.
Qed.

Lemma SF_above_rung a b v :
  SFleb a b = true → SFltb b v = true → SFleb v a = false.
Proof.
  unfold SFleb, SFltb.
  destruct a as [sa|sa| |sa ma ea], b as [sb|sb| |sb mb eb],
    v as [sv|sv| |sv mv ev]; simpl; try done;
    try (by destruct sa); try (by destruct sb); try (by destruct sv);
    try (by destruct sa, sb); try (by destruct sb, sv); try (by destruct sa, sv);
    try (by destruct sa, sb, sv).
  change (Pos.compare_cont Eq) with Pos.compare.
  destruct sa, sb, sv; try done;
    destruct (Z.compare_spec ea eb), (Z.compare_spec eb ev),
      (Z.compare_spec ev ea); try done; try lia; subst;
    destruct (Pos.compare_spec ma mb), (Pos.compare_spec mb mv),
      (Pos.compare_spec mv ma); simpl; try done; try lia.
Qed.

(** [v] lies above the threshold [b], so the test against every threshold
    [a <= b] has failed. *)
Lemma above_rung (a b v : float) :
  PrimFloat.leb a b = true → PrimFloat.ltb b v = true →
  PrimFloat.leb v a = false.
Proof.
  rewrite FloatAxioms.leb_spec, FloatAxioms.ltb_spec, FloatAxioms.leb_spec.
  apply SF_above_rung.
Qed.

Lemma band_moderate v :
  PrimFloat.ltb Float.c12 v = true → PrimFloat.leb v Float.c35_4 = true →
  indicative_aqi (Some v) = "Moderate".
Proof.
  intros Hlo Hhi. unfold indicative_aqi.
  by rewrite (ltb_not_nan _ _ Hlo), (ltb_leb_false _ _ Hlo), Hhi.
Qed.

Lemma band_sensitive v :
  PrimFloat.ltb Float.c35_4 v = true → PrimFloat.leb v Float.c55_4 = true →
  indicative_aqi (Some v) = "Unhealthy for Sensitive Groups".
Proof.
  intros Hlo Hhi. unfold indicative_aqi.
  rewrite (ltb_not_nan _ _ Hlo), (ltb_leb_false _ _ Hlo), Hhi.
  by rewrite (above_rung Float.c12 Float.c35_4 v eq_refl Hlo).
Qed.

Lemma band_unhealthy v :
  PrimFloat.ltb Float.c55_4 v = true → PrimFloat.leb v Float.c150_4 = true →
  indicative_aqi (Some v) = "Unhealthy".
Proof.
  intros Hlo Hhi. unfold indicative_aqi.
  rewrite (ltb_not_nan _ _ Hlo), (ltb_leb_false _ _ Hlo), Hhi.
  rewrite (above_rung Float.c12 Float.c55_4 v eq_refl Hlo).
  by rewrite (above_rung Float.c35_4 Float.c55_4 v eq_refl Hlo).
Qed.

Lemma band_very_unhealthy v :
  PrimFloat.ltb Float.c150_4 v = true → PrimFloat.leb v Float.c250_4 = true →
  indicative_aqi (Some v) = "Very Unhealthy".
Proof.
  intros Hlo Hhi. unfold indicative_aqi.
  rewrite (ltb_not_nan _ _ Hlo), (ltb_leb_false _ _ Hlo), Hhi.
  rewrite (above_rung Float.c12 Float.c150_4 v eq_refl Hlo).
  rewrite (above_rung Float.c35_4 Float.c150_4 v eq_refl Hlo).
  by rewrite (above_rung Float.c55_4 Float.c150_4 v eq_refl Hlo).
Qed.

Lemma band_hazardous v :
  PrimFloat.ltb Float.c250_4 v = true →
  indicative_aqi (Some v) = "Hazardous".
Proof.
  intros Hlo. unfold indicative_aqi.
  rewrite (ltb_not_nan _ _ Hlo), (ltb_leb_false _ _ Hlo).
  rewrite (above_rung Float.c12 Float.c250_4 v eq_refl Hlo).
  rewrite (above_rung Float.c35_4 Float.c250_4 v eq_refl Hlo).
  rewrite (above_rung Float.c55_4 Float.c250_4 v eq_refl Hlo).
  by rewrite (above_rung Float.c150_4 Float.c250_4 v eq_refl Hlo).
Qed.

Lemma band_unknown pm25 : isna pm25 = true → indicative_aqi pm25 = "Unknown".
Proof. destruct pm25 as [v|]; simpl; [|done]. by intros ->. Qed.

(** C1. For every PM2.5 input: an absent or NaN input is banded "Unknown";
    otherwise v <= 12 is "Good", 12 < v <= 35.4 "Moderate", 35.4 < v <= 55.4
    "Unhealthy for Sensitive Groups", 55.4 < v <= 150.4 "Unhealthy",
    150.4 < v <= 250.4 "Very Unhealthy" and v > 250.4 "Hazardous"; in
    particular 12 gives "Good" and 12.1 gives "Moderate".  Comparisons are
    those of binary64, the thresholds the doubles the literals denote. *)
Theorem indicative_aqi_bands (pm25 : option float) :
  (isna pm25 = true → indicative_aqi pm25 = "Unknown") ∧
  (∀ v : float, pm25 = Some v →
     ((v <=? 12)%float = true → indicative_aqi pm25 = "Good") ∧
     ((12 <? v)%float = true → (v <=? 35.4)%float = true →
        indicative_aqi pm25 = "Moderate") ∧
     ((35.4 <? v)%float = true → (v <=? 55.4)%float = true →
        indicative_aqi pm25 = "Unhealthy for Sensitive Groups") ∧
     ((55.4 <? v)%float = true → (v <=? 150.4)%float = true →
        indicative_aqi pm25 = "Unhealthy") ∧
     ((150.4 <? v)%float = true → (v <=? 250.4)%float = true →
        indicative_aqi pm25 = "Very Unhealthy") ∧
     ((250.4 <? v)%float = true → indicative_aqi pm25 = "Hazardous")) ∧
  indicative_aqi (Some 12%float) = "Good" ∧
  indicative_aqi (Some 12.1%float) = "Moderate".
Proof.
  split; [apply band_unknown|]. split; [|by split].
  intros v ->. repeat split.
  - apply band_good.
  - apply band_moderate.
  - apply band_sensitive.
  - apply band_unhealthy.
  - apply band_very_unhealthy.
  - apply band_hazardous.
Qed.

(** C9. Every negative PM2.5 value is banded "Good": the ladder has no
    lower bound, so a value below zero (minus infinity included) is not
    null and passes the first test, [v <= 12]; -5.0 is one such value. *)
Theorem indicative_aqi_negative (v : float) :
  (v <? 0)%float = true →
  isna (Some v) = false ∧ (v <=? 12)%float = true ∧
  indicative_aqi (Some v) = "Good".
Proof.
  intros H. pose proof (ltb_zero_leb_c12 v H) as Hle.
  split; [by apply (leb_not_nan v Float.c12)|]. split; [done|].
  by apply band_good.
Qed.

End bander.

Lemma indicative_aqi_bands_witness :
  indicative_aqi None = "Unknown" ∧ indicative_aqi (Some PrimFloat.nan) = "Unknown" ∧
  indicative_aqi (Some 7.5%float) = "Good" ∧
  indicative_aqi (Some 35.4%float) = "Moderate" ∧
  indicative_aqi (Some 35.5%float) = "Unhealthy for Sensitive Groups" ∧
  indicative_aqi (Some 100%float) = "Unhealthy" ∧
  indicative_aqi (Some 250.4%float) = "Very Unhealthy" ∧
  indicative_aqi (Some 250.5%float) = "Hazardous".
Proof.
  split; [exact (proj1 (indicative_aqi_bands None) eq_refl)|].
  split; [exact (proj1 (indicative_aqi_bands (Some PrimFloat.nan)) eq_refl)|].
  split; [exact (proj1 (proj1 (proj2 (indicative_aqi_bands (Some 7.5%float)))
                                _ eq_refl) eq_refl)|].
  split; [exact (proj1 (proj2 (proj1 (proj2 (indicative_aqi_bands (Some 35.4%float)))
                                _ eq_refl)) eq_refl eq_refl)|].
  split; [exact (proj1 (proj2 (proj2 (proj1 (proj2
            (indicative_aqi_bands (Some 35.5%float))) _ eq_refl))) eq_refl eq_refl)|].
  split; [exact (proj1 (proj2 (proj2 (proj2 (proj1 (proj2
            (indicative_aqi_bands (Some 100%float))) _ eq_refl)))) eq_refl eq_refl)|].
  split; [exact (proj1 (proj2 (proj2 (proj2 (proj2 (proj1 (proj2
            (indicative_aqi_bands (Some 250.4%float))) _ eq_refl))))) eq_refl eq_refl)|].
  exact (proj2 (proj2 (proj2 (proj2 (proj2 (proj1 (proj2
            (indicative_aqi_bands (Some 250.5%float))) _ eq_refl))))) eq_refl).
Defined.

Lemma indicative_aqi_negative_witness :
  (-5.0 <? 0)%float = true ∧
  isna (Some (-5.0)%float) = false ∧ (-5.0 <=? 12)%float = true ∧
  indicative_aqi (Some (-5.0)%float) = "Good".
Proof.
  split; [reflexivity|]. apply (indicative_aqi_negative (-5.0)%float). reflexivity.
Defined.

(** ** Chat orchestrator *)

Section chat.

Lemma lstrip_blank s : Str.blank s = true → Str.lstrip s = "".
Proof.
  induction s as [|c s IH]; simpl; [done|].
  intros [Hc Hs]%andb_true_iff. rewrite Hc. auto.
Qed.

Lemma lstrip_nonblank s :
  Str.blank s = false →
  ∃ c t, Str.lstrip s = String c t ∧ Str.isspace c = false.
Proof.
  induction s as [|c s IH]; simpl; [done|].
  destruct (Str.isspace c) eqn:Hc; simpl; [apply IH|]. eauto.
Qed.

Lemma rstrip_head c t :
  Str.isspace c = false → ∃ r, Str.rstrip (String c t) = String c r.
Proof. intros Hc. simpl. rewrite Hc. destruct (Str.rstrip t); eauto. Qed.

Lemma strip_empty_blank s : Str.strip s = "" ↔ Str.blank s = true.
Proof.
  unfold Str.strip. split.
  - destruct (Str.blank s) eqn:Hs; [done|].
    destruct (lstrip_nonblank s Hs) as (c & t & -> & Hc).
    by destruct (rstrip_head c t Hc) as [r ->].
  - by intros ->%lstrip_blank.
Qed.

Lemma guard_true s : Str.strip s ≠ "" → Str.truthy (Str.strip s) = true.
Proof. by destruct (Str.strip s). Qed.

Lemma app_empty_r (s : string) : s +:+ "" = s.
Proof.
  induction s as [|c s IH]; [done|].
  change (String c (s +:+ "") = String c s). by rewrite IH.
Qed.

Lemma contains_suffix pre e : Str.contains e (pre +:+ e).
Proof. exists pre, "". by rewrite app_empty_r. Qed.

(** The handler on a text that passes the guard. *)
Lemma chat_submit_guarded model city ctx_summary user_msg w :
  Str.strip user_msg ≠ "" →
  chat_submit model city ctx_summary true user_msg w =
  (Return tt,
   {| local_df := local_df w;
      screen := screen w;
      chat_history :=
        chat_history w ++
        [("user", user_msg);
         ("assistant", answer_for model (final_prompt city ctx_summary user_msg))];
      api_calls :=
        api_calls w ++ prompts_sent model (final_prompt city ctx_summary user_msg) |}).
Proof.
  intros Hs. unfold chat_submit. rewrite (guard_true _ Hs). simpl.
  unfold mbind, script_bind, try_except, append_chat, ask_model, answer_for. simpl.
  destruct model as [m|]; simpl.
  - unfold mbind, script_bind, call_generate_content. simpl.
    destruct (generate_content m _) as [resp|e]; simpl.
    + destruct (text resp); simpl; by rewrite <-(assoc_L (++)).
    + by rewrite <-(assoc_L (++)).
  - by rewrite <-(assoc_L (++)), (right_id_L [] (++)).
Qed.

(** C8. A submission whose text is empty or whitespace only leaves the
    state as it was: nothing is appended to the chat log and no prompt is
    sent to the LLM. *)
Theorem chat_submit_blank model city ctx_summary send user_msg w :
  Str.blank user_msg = true →
  chat_submit model city ctx_summary send user_msg w = (Return tt, w).
Proof.
  intros Hs%strip_empty_blank. unfold chat_submit. rewrite Hs; simpl.
  by rewrite andb_false_r.
Qed.

(** C5 (amended). For every submission whose text is non-empty after
    stripping whitespace, also when the LLM call fails: the handler returns,
    the log is the old log followed by the user entry with the submitted
    text and one assistant entry, so its length grows by exactly 2 and every
    earlier entry keeps its position; when the LLM call raises, the
    assistant entry contains the error text. *)
Theorem chat_submit_appends model city ctx_summary user_msg w :
  Str.strip user_msg ≠ "" →
  ∃ answer w',
    chat_submit model city ctx_summary true user_msg w = (Return tt, w') ∧
    chat_history w' =
      chat_history w ++ [("user", user_msg); ("assistant", answer)] ∧
    length (chat_history w') = length (chat_history w) + 2 ∧
    (∀ i entry, chat_history w !! i = Some entry →
                chat_history w' !! i = Some entry) ∧
    (∀ m e, model = Some m →
            generate_content m (final_prompt city ctx_summary user_msg) = Raise e →
            answer = "Model error: " +:+ e ∧ Str.contains e answer).
Proof.
  intros Hs. eexists (answer_for model (final_prompt city ctx_summary user_msg)), _.
  split; [by apply chat_submit_guarded|]. simpl.
  split; [done|]. split; [rewrite length_app; simpl; lia|].
  split; [intros i entry Hi; by apply lookup_app_l_Some|].
  intros m e -> He. unfold answer_for. rewrite He.
  split; [done|]. apply contains_suffix.
Qed.

(** C10. When the LLM call returns a response object without a [text]
    attribute, the assistant entry appended for the submission is exactly
    "No response.". *)
Theorem chat_submit_no_text m resp city ctx_summary user_msg w :
  Str.strip user_msg ≠ "" →
  generate_content m (final_prompt city ctx_summary user_msg) = Return resp →
  text resp = NoAttribute →
  ∃ w',
    chat_submit (Some m) city ctx_summary true user_msg w = (Return tt, w') ∧
    chat_history w' =
      chat_history w ++ [("user", user_msg); ("assistant", "No response.")].
Proof.
  intros Hs Hresp Htext. eexists.
  split; [by apply chat_submit_guarded|]. simpl.
  by rewrite Hresp, Htext.
Qed.

End chat.

(** C6 (amended). With no credential configured (the key is unset or empty)
    a submission whose text is non-empty after stripping whitespace appends the
    user entry with the submitted text and the fixed "not configured"
    assistant entry, and sends no prompt to the LLM API. *)
Theorem chat_submit_not_configured key new_model city ctx_summary user_msg w :
  key = None ∨ key = Some "" →
  Str.strip user_msg ≠ "" →
  ∃ w',
    chat_submit (setup_model key new_model) city ctx_summary true user_msg w =
      (Return tt, w') ∧
    chat_history w' =
      chat_history w ++ [("user", user_msg); ("assistant", not_configured)] ∧
    api_calls w' = api_calls w.
Proof.
  intros Hkey Hs.
  assert (setup_model key new_model = None) as -> by (by destruct Hkey as [-> | ->]).
  eexists. split; [by apply chat_submit_guarded|]. simpl.
  by rewrite (right_id_L [] (++)).
Qed.

(** ** Context summarizer *)

Section summarizer.

Implicit Types (df : DataFrame) (t : Z) (k p : string) (r : row).

Lemma key_of_Some r t p :
  Pandas.key_of r = Some (t, p) ↔ datetime r = Some t ∧ parameter r = Some p.
Proof.
  unfold Pandas.key_of.
  destruct (datetime r), (parameter r); simpl;
    (split; [intros ?|intros [??]]); by simplify_eq.
Qed.

Lemma group_readings df t p :
  Pandas.group df (t, p) = Described.readings df t p.
Proof.
  unfold Pandas.group, Described.readings.
  induction df as [|r df IH]; [done|].
  rewrite filter_cons. csimpl.
  destruct (decide (Pandas.key_of r = Some (t, p))) as [Hk|Hk];
    destruct (decide (datetime r = Some t ∧ parameter r = Some p)) as [Hd|Hd];
    csimpl; rewrite ?IH; try done; by rewrite key_of_Some in Hk.
Qed.

Lemma mean_step_nan a vals :
  Forall (λ v, Float.is_nan v = true) vals →
  foldl Pandas.mean_step a vals = a.
Proof.
  intros H. revert a. induction H as [|v vals Hv _ IH]; intros a; [done|].
  simpl. unfold Pandas.mean_step at 2. rewrite Hv. apply IH.
Qed.

Lemma mean_all_nan vals :
  Forall (λ v, Float.is_nan v = true) vals →
  Float.is_nan (Pandas.mean vals) = true.
Proof. intros H. unfold Pandas.mean. by rewrite mean_step_nan. Qed.

Lemma mean_not_nan vals :
  Float.is_nan (Pandas.mean vals) = false →
  ∃ v, v ∈ vals ∧ Float.is_nan v = false.
Proof.
  intros H.
  destruct (decide (Forall (λ v, Float.is_nan v = true) vals)) as [Hall|Hex].
  - pose proof (mean_all_nan _ Hall). congruence.
  - apply not_Forall_Exists in Hex; [|apply _].
    apply Exists_exists in Hex as (v & Hv & Hn). exists v. split; [done|].
    by apply not_true_is_false.
Qed.

Lemma elem_of_keys df (k : Z * string) :
  k ∈ Pandas.keys df ↔ ∃ r, r ∈ df ∧ Pandas.key_of r = Some k.
Proof. unfold Pandas.keys. by rewrite elem_of_remove_dups, list_elem_of_omap. Qed.

Lemma elem_of_group df (k : Z * string) v :
  v ∈ Pandas.group df k ↔ ∃ r, r ∈ df ∧ Pandas.key_of r = Some k ∧ value r = v.
Proof.
  unfold Pandas.group. rewrite list_elem_of_fmap. split.
  - intros (r & -> & [??]%list_elem_of_filter). eauto.
  - intros (r & ? & ? & <-). exists r. by rewrite list_elem_of_filter.
Qed.

Lemma elem_of_agged df (k : Z * string) m :
  (k, m) ∈ Pandas.agged df ↔
  m = Pandas.mean (Pandas.group df k) ∧ Float.is_nan m = false.
Proof.
  unfold Pandas.agged. rewrite list_elem_of_filter, list_elem_of_fmap. simpl. split.
  - intros (? & k' & ? & _). by simplify_eq.
  - intros [-> Hm]. split; [done|]. exists k. split; [done|].
    destruct (mean_not_nan _ Hm) as (v & (r & ? & ? & _)%elem_of_group & _).
    apply elem_of_keys. eauto.
Qed.

Lemma NoDup_agged df : NoDup (Pandas.agged df).*1.
Proof.
  apply NoDup_fmap_fst.
  - intros k m1 m2 [-> _]%elem_of_agged [-> _]%elem_of_agged. done.
  - apply NoDup_filter, NoDup_fmap_2, NoDup_remove_dups.
    intros k1 k2 ?. by simplify_eq.
Qed.

Lemma lookup_agged df t p :
  (list_to_map (Pandas.agged df) : gmap (Z * string) float) !! (t, p) =
  if Float.is_nan (Described.averaged df t p) then None
  else Some (Described.averaged df t p).
Proof.
  unfold Described.averaged. rewrite <-group_readings.
  destruct (Float.is_nan _) eqn:Hm.
  - destruct (list_to_map _ !! _) as [m|] eqn:Hl; [|done].
    apply elem_of_list_to_map in Hl; [|apply NoDup_agged].
    apply elem_of_agged in Hl as [-> ?]. congruence.
  - apply elem_of_list_to_map; [apply NoDup_agged|]. by apply elem_of_agged.
Qed.

Lemma cell_agged df t p :
  Pandas.cell (Pandas.agged df) t p =
  if Float.is_nan (Described.averaged df t p) then PrimFloat.nan
  else Described.averaged df t p.
Proof.
  unfold Pandas.cell. rewrite lookup_agged. by destruct (Float.is_nan _).
Qed.

Lemma elem_of_index df t :
  t ∈ Pandas.index (Pandas.agged df) ↔
  ∃ p, Float.is_nan (Described.averaged df t p) = false.
Proof.
  unfold Pandas.index. rewrite merge_sort_Permutation, elem_of_remove_dups.
  rewrite list_elem_of_fmap. split.
  - intros ([t' p] & -> & ([k m] & ? & [-> Hm]%elem_of_agged)%list_elem_of_fmap).
    simplify_eq/=. exists p. unfold Described.averaged. by rewrite <-group_readings.
  - intros [p Hm]. exists (t, p). split; [done|]. apply list_elem_of_fmap.
    exists ((t, p), Described.averaged df t p). split; [done|].
    apply elem_of_agged. unfold Described.averaged in *. by rewrite group_readings.
Qed.

Lemma elem_of_columns df p :
  p ∈ Pandas.columns (Pandas.agged df) ↔
  ∃ t, Float.is_nan (Described.averaged df t p) = false.
Proof.
  unfold Pandas.columns. rewrite elem_of_remove_dups.
  rewrite list_elem_of_fmap. split.
  - intros ([t p'] & -> & ([k m] & ? & [-> Hm]%elem_of_agged)%list_elem_of_fmap).
    simplify_eq/=. exists t. unfold Described.averaged. by rewrite <-group_readings.
  - intros [t Hm]. exists (t, p). split; [done|]. apply list_elem_of_fmap.
    exists ((t, p), Described.averaged df t p). split; [done|].
    apply elem_of_agged. unfold Described.averaged in *. by rewrite group_readings.
Qed.

Lemma lookup_record df t p :
  Pandas.record (Pandas.agged df) t !! p =
  if decide (p ∈ Pandas.columns (Pandas.agged df))
  then Some (Pandas.cell (Pandas.agged df) t p) else None.
Proof.
  unfold Pandas.record.
  assert (((λ p, (p, Pandas.cell (Pandas.agged df) t p)) <$>
             Pandas.columns (Pandas.agged df)).*1 = Pandas.columns (Pandas.agged df))
    as Hfst.
  { rewrite <-list_fmap_compose. apply list_fmap_id. }
  case_decide as Hp.
  - apply elem_of_list_to_map.
    + rewrite Hfst. apply NoDup_remove_dups.
    + apply list_elem_of_fmap. eauto.
  - apply not_elem_of_list_to_map. by rewrite Hfst.
Qed.

(** What the loop of the summarizer sees of a record: a non-null value is
    the average of the readings, and there is one exactly when that average
    is not null. *)
Lemma record_notna df t k :
  Pandas.record (Pandas.agged df) t !! k ≫= (λ v, if Float.is_nan v then None else Some v) =
  if Float.is_nan (Described.averaged df t k) then None
  else Some (Described.averaged df t k).
Proof.
  rewrite lookup_record, cell_agged. case_decide as Hp; simpl.
  - destruct (Float.is_nan (Described.averaged df t k)) eqn:Hm; simpl;
      [reflexivity|by rewrite Hm].
  - destruct (Float.is_nan (Described.averaged df t k)) eqn:Hm; [done|].
    destruct Hp. apply elem_of_columns. eauto.
Qed.

Global Instance index_le_total : Total Pandas.index_le.
Proof. intros a b. unfold Pandas.index_le. lia. Qed.

Global Instance index_le_trans : Transitive Pandas.index_le.
Proof. intros a b c. unfold Pandas.index_le. lia. Qed.

Lemma last_merge_sort {A} (R : relation A) `{!RelDecision R, !Total R, !Transitive R}
    (l : list A) (x : A) :
  last (merge_sort R l) = Some x → x ∈ l ∧ ∀ y, y ∈ l → R y x.
Proof.
  intros Hlast.
  pose proof (StronglySorted_merge_sort R l) as Hsorted.
  apply last_Some in Hlast as [l' Hl']. rewrite Hl' in Hsorted.
  split.
  - rewrite <-(merge_sort_Permutation R l), Hl'. set_solver.
  - intros y. rewrite <-(merge_sort_Permutation R l), Hl'.
    intros [Hy| ->%list_elem_of_singleton]%elem_of_app.
    + eapply StronglySorted_app_1_elem_of; [done..|set_solver].
    + by destruct (total R x x).
Qed.

Lemma last_pivot_Some df (x : Z * gmap string float) :
  last (Pandas.sort_index (Pandas.pivot_table df)) = Some x →
  x.2 = Pandas.record (Pandas.agged df) x.1 ∧
  x.1 ∈ Pandas.index (Pandas.agged df) ∧
  ∀ t, t ∈ Pandas.index (Pandas.agged df) → (t ≤ x.1)%Z.
Proof.
  unfold Pandas.sort_index, Pandas.pivot_table.
  intros Hlast. destruct (last_merge_sort _ _ _ Hlast) as [Hx Hmax].
  apply list_elem_of_fmap in Hx as (t & -> & Ht). simpl.
  split; [done|]. split; [done|].
  intros u Hu. apply (Hmax (u, Pandas.record (Pandas.agged df) u)).
  apply list_elem_of_fmap. eauto.

Qed.

Lemma last_pivot_None df :
  last (Pandas.sort_index (Pandas.pivot_table df)) = None →
  Pandas.index (Pandas.agged df) = [].
Proof.
  unfold Pandas.sort_index, Pandas.pivot_table.
  intros Hnil%last_None.
  pose proof (merge_sort_Permutation Pandas.index_le
    ((λ t, (t, Pandas.record (Pandas.agged df) t)) <$> Pandas.index (Pandas.agged df))) as Hp.
  rewrite Hnil in Hp. symmetry in Hp. apply Permutation_nil_r in Hp.
  by apply fmap_nil_inv in Hp.
Qed.

Lemma reports_Some df r t :
  Described.reports df r = Some t ↔
  datetime r = Some t ∧
  ∃ p, parameter r = Some p ∧ Float.is_nan (Described.averaged df t p) = false.
Proof.
  unfold Described.reports. destruct (datetime r) as [u|], (parameter r) as [p|].
  - destruct (Float.is_nan (Described.averaged df u p)) eqn:Hm; split.
    + done.
    + intros [? (q & ? & ?)]. simplify_eq. congruence.
    + intros ?. simplify_eq. eauto.
    + intros [? _]. by simplify_eq.
  - split; [done|]. by intros [_ (? & ? & _)].
  - split; [done|]. by intros [? _].
  - split; [done|]. by intros [? _].
Qed.

Lemma reports_index df t :
  (∃ r, r ∈ df ∧ Described.reports df r = Some t) ↔
  t ∈ Pandas.index (Pandas.agged df).
Proof.
  rewrite elem_of_index. split.
  - intros (r & _ & (_ & p & _ & Hm)%reports_Some). eauto.
  - intros [p Hm]. pose proof Hm as Hm'. unfold Described.averaged in Hm'.
    rewrite <-group_readings in Hm'.
    destruct (mean_not_nan _ Hm') as (v & (r & Hr & [??]%key_of_Some & _)%elem_of_group & _).
    exists r. split; [done|]. apply reports_Some. eauto.
Qed.

Lemma latest_in_None df part :
  Described.latest_in df part = None → ∀ r, r ∈ part → Described.reports df r = None.
Proof.
  induction part as [|r part IHpart]; simpl; [set_solver|].
  destruct (Described.reports df r) as [t|] eqn:Hr.
  - by destruct (Described.latest_in df part).
  - intros Hn r' [->|?]%elem_of_cons; auto.
Qed.

Lemma latest_in_Some df part t :
  Described.latest_in df part = Some t →
  (∃ r, r ∈ part ∧ Described.reports df r = Some t) ∧
  ∀ r u, r ∈ part → Described.reports df r = Some u → (u ≤ t)%Z.
Proof.
  revert t. induction part as [|r part IHpart]; intros t; simpl; [done|].
  destruct (Described.reports df r) as [u|] eqn:Hr.
  - destruct (Described.latest_in df part) as [w|] eqn:Hw; simpl; intros ?; simplify_eq.
    + destruct (IHpart w eq_refl) as [(r' & Hr' & Hrep) Hmax]. clear IHpart. split.
      * destruct (Z.max_spec u w) as [[? ->]|[? ->]]; [|exists r; set_solver].
        exists r'. set_solver.
      * intros r'' u' [->|Hin]%elem_of_cons Hu'; simplify_eq; [lia|].
        specialize (Hmax _ _ Hin Hu'). lia.
    + pose proof (latest_in_None _ _ Hw) as Hnone. clear IHpart. split.
      * exists r. set_solver.
      * intros r'' u' [->|Hin]%elem_of_cons Hu'; simplify_eq; [lia|].
        rewrite (Hnone _ Hin) in Hu'. done.
  - intros Ht. destruct (IHpart t Ht) as [(r' & Hr' & Hrep) Hmax]. clear IHpart. split.
    + exists r'. set_solver.
    + intros r'' u' [->|Hin]%elem_of_cons Hu'; [congruence|]. eauto.
Qed.

(** When no group of the table has a null average, the latest instant of
    the grouped table is the latest instant of the keyed rows. *)
Lemma latest_timestamp_no_nulls df :
  (∀ r t k, r ∈ df → datetime r = Some t → parameter r = Some k →
            Float.is_nan (Described.averaged df t k) = false) →
  Described.latest_timestamp df = Described.latest_keyed df.
Proof.
  unfold Described.latest_timestamp. intros Hall.
  assert (∀ part, part ⊆ df →
            Described.latest_in df part = Described.latest_keyed part) as Hpart.
  { induction part as [|r part IHpart]; intros Hsub; [done|]. simpl.
    rewrite IHpart by (intros r' ?; apply Hsub; by apply list_elem_of_further).
    unfold Described.reports.
    destruct (datetime r) as [t|] eqn:Ht, (parameter r) as [k|] eqn:Hk; try done.
    rewrite (Hall r t k); [done| |done..]. apply Hsub, list_elem_of_here. }
  by apply Hpart.
Qed.

Lemma latest_vals_spec df :
  latest_vals df =
  match Described.latest_timestamp df with
  | Some t => Pandas.record (Pandas.agged df) t
  | None => ∅
  end.
Proof.
  unfold latest_vals, Pandas.tail_records.
  change (Described.latest_timestamp df) with (Described.latest_in df df).
  destruct (last _) as [[t rec]|] eqn:Hlast.
  - apply last_pivot_Some in Hlast as (Hrec & Hin & Hmax). simpl in *. subst rec.
    destruct (Described.latest_in df df) as [u|] eqn:Hu.
    + apply latest_in_Some in Hu as [Hex Humax].
      apply reports_index in Hin as (r & Hr & Hrep).
      specialize (Humax _ _ Hr Hrep).
      apply reports_index in Hex. specialize (Hmax _ Hex).
      by replace u with t by lia.
    + apply reports_index in Hin as (r & Hr & Hrep).
      by rewrite (latest_in_None _ _ Hu _ Hr) in Hrep.
  - apply last_pivot_None in Hlast.
    destruct (Described.latest_in df df) as [u|] eqn:Hu; [|done].
    apply latest_in_Some in Hu as [Hex%reports_index _].
    rewrite Hlast in Hex. set_solver.
Qed.

Lemma add_part_spec df t parts k :
  add_part (Pandas.record (Pandas.agged df) t) parts k =
  parts ++ option_list (Described.field df t k).
Proof.
  unfold add_part, Described.field. pose proof (record_notna df t k) as H.
  destruct (Pandas.record _ _ !! k) as [v|]; simpl in *;
    [destruct (Float.is_nan v)|];
    destruct (Float.is_nan (Described.averaged df t k));
    simplify_eq; simpl; by rewrite ?app_nil_r.
Qed.

Lemma foldl_add_part df t ks parts :
  foldl (add_part (Pandas.record (Pandas.agged df) t)) parts ks =
  parts ++ omap (Described.field df t) ks.
Proof.
  revert parts. induction ks as [|k ks IH]; intros parts; simpl.
  - by rewrite app_nil_r.
  - rewrite IH, add_part_spec, <-(assoc_L (++)).
    by destruct (Described.field df t k).
Qed.

Lemma band_latest df t :
  indicative_aqi (Pandas.record (Pandas.agged df) t !! "pm25") =
  indicative_aqi (Some (Described.averaged df t "pm25")).
Proof.
  pose proof (record_notna df t "pm25") as H. unfold indicative_aqi.
  destruct (Pandas.record _ _ !! "pm25") as [v|]; simpl in *;
    [destruct (Float.is_nan v)|];
    destruct (Float.is_nan (Described.averaged df t "pm25"));
    by simplify_eq.
Qed.

(** The parts of the summary, read off the rows. *)
Lemma summary_parts_described df :
  summary_parts df =
  match Described.latest_timestamp df with
  | Some t =>
      ("Latest indicative AQI (by PM2.5): " +:+
         indicative_aqi (Some (Described.averaged df t "pm25")))
      :: omap (Described.field df t) tracked
  | None => ["Latest indicative AQI (by PM2.5): " +:+ indicative_aqi None]
  end.
Proof.
  unfold summary_parts. rewrite latest_vals_spec.
  destruct (Described.latest_timestamp df) as [t|].
  - by rewrite foldl_add_part, band_latest.
  - reflexivity.
Qed.

(** C3 (amended). For every non-empty table the summary is the header
    "Latest indicative AQI (by PM2.5): {band}", the band being that of the
    averaged PM2.5 readings of the chronologically latest timestamp at which
    some pollutant has a non-null average (a timestamp whose readings are all
    null is dropped from the grouped table and skipped), followed by one
    "{POLLUTANT}={value:.1f}" field for each of pm25, pm10, no2, o3, so2
    whose average at that timestamp is present and non-null, all joined by
    "; ". *)
Theorem compose_context_summary_described df :
  df ≠ [] →
  compose_context_summary df =
  Described.summary "Latest indicative AQI (by PM2.5): " df.
Proof.
  intros Hdf. unfold compose_context_summary, Described.summary.
  destruct df as [|r df']; [done|]. simpl empty. cbv iota.
  rewrite summary_parts_described.
  by destruct (Described.latest_timestamp (r :: df')).
Qed.

(** C4. The summary of the empty table is the fixed sentence
    "No recent measurements found.". *)
Theorem compose_context_summary_empty df :
  empty df = true →
  compose_context_summary df = "No recent measurements found.".
Proof. intros Hdf. unfold compose_context_summary. by rewrite Hdf. Qed.

End summarizer.

(** ** Reading a summary back *)

Section reading_back.

Abbreviation chars := String.list_ascii_of_string.

Implicit Types (n l a b : list ascii) (c : ascii).

Lemma chars_app (s1 s2 : string) : chars (s1 +:+ s2) = chars s1 ++ chars s2.
Proof. induction s1 as [|c s1 IH]; [done|]. simpl. by rewrite <-IH. Qed.

Lemma contains_chars (needle s : string) :
  Str.contains needle s → ∃ pre suf, chars s = pre ++ chars needle ++ suf.
Proof.
  intros (pre & suf & ->). exists (chars pre), (chars suf).
  by rewrite !chars_app.
Qed.

(** An occurrence of [n] cannot run across a character that [n] lacks. *)
Lemma infix_sep n a b c :
  c ∉ n →
  (∃ pre suf, a ++ c :: b = pre ++ n ++ suf) →
  (∃ pre suf, a = pre ++ n ++ suf) ∨ (∃ pre suf, b = pre ++ n ++ suf).
Proof.
  intros Hc (pre & suf & Heq). symmetry in Heq.
  apply app_eq_inv in Heq as [(k & -> & Hk)|(k & -> & Hk)].
  - destruct k as [|c' k]; simplify_eq/=.
    + destruct n as [|c' n]; simplify_eq/=.
      * left. exists a, []. by rewrite app_nil_r.
      * destruct Hc. set_solver.
    + right. eauto.
  - left. apply app_eq_inv in Hk as [(k2 & -> & Hk2)|(k2 & -> & Hk2)].
    + destruct k2 as [|c' k2]; simplify_eq/=.
      * exists pre, []. by rewrite !app_nil_r.
      * destruct Hc. set_solver.
    + by exists pre, k2.
Qed.

Lemma infix_join n (parts : list string) :
  n ≠ [] → ";"%char ∉ n → " "%char ∉ n →
  (∃ pre suf, chars (join "; " parts) = pre ++ n ++ suf) →
  ∃ p, p ∈ parts ∧ ∃ pre suf, chars p = pre ++ n ++ suf.
Proof.
  intros Hn Hsemi Hspace. induction parts as [|p parts IH].
  - intros (pre & suf & Heq). simpl in Heq.
    symmetry in Heq. apply app_eq_nil in Heq as [_ [??]%app_eq_nil]. done.
  - destruct parts as [|q parts].
    + intros Hp. exists p. split; [apply list_elem_of_here|exact Hp].
    + change (join "; " (p :: q :: parts)) with (p +:+ "; " +:+ join "; " (q :: parts)).
      rewrite !chars_app. simpl.
      intros Hall. apply (infix_sep n _ _ ";"%char Hsemi) in Hall as [Hp|Hrest].
      * exists p. split; [|done]; auto using list_elem_of_here, list_elem_of_further.
      * apply (infix_sep n [] _ " "%char Hspace) in Hrest as [Hnil|Hrest].
        -- destruct Hnil as (pre & suf & Heq).
           symmetry in Heq. apply app_eq_nil in Heq as [_ [??]%app_eq_nil]. done.
        -- destruct (IH Hrest) as (p' & ? & ?). exists p'. split; [|done]; auto using list_elem_of_here, list_elem_of_further.
Qed.

(** Two ways of cutting a list at a character that occurs nowhere else. *)
Lemma cut_unique l1 l2 k1 k2 c :
  c ∉ k1 → c ∉ k2 → l1 ++ c :: l2 = k1 ++ c :: k2 → l1 = k1.
Proof.
  intros Hk1 Hk2 Heq.
  apply app_eq_inv in Heq as [(k & -> & Hk)|(k & -> & Hk)].
  - destruct k as [|c' k]; simplify_eq/=; [by rewrite app_nil_r|].
    destruct Hk2. apply elem_of_app. right. apply list_elem_of_here.
  - destruct k as [|c' k]; simplify_eq/=; [by rewrite app_nil_r|].
    destruct Hk1. apply elem_of_app. right. apply list_elem_of_here.
Qed.

Lemma pretty_N_char_no_eq d : pretty_N_char d ≠ "="%char.
Proof. unfold pretty_N_char. by repeat case_match. Qed.

Lemma pretty_N_go_no_eq x s :
  "="%char ∉ chars s → "="%char ∉ chars (pretty_N_go x s).
Proof.
  revert s. induction (N.lt_wf_0 x) as [x _ IH]; intros s Hs.
  assert (x = 0 ∨ 0 < x)%N as [->|?] by lia.
  - by rewrite pretty_N_go_0.
  - rewrite pretty_N_go_step by done. apply IH; [by apply N.div_lt|].
    simpl. apply not_elem_of_cons. split; [|done].
    intros Heq. by apply (pretty_N_char_no_eq (x `mod` 10)%N).
Qed.

Lemma pretty_Z_no_eq (z : Z) : "="%char ∉ chars (pretty z).
Proof.
  assert (∀ x : N, "="%char ∉ chars (pretty x)) as HN.
  { intros x. unfold pretty, pretty_N. case_decide.
    - simpl. rewrite list_elem_of_singleton. done.
    - apply pretty_N_go_no_eq. simpl. apply not_elem_of_nil. }
  unfold pretty, pretty_Z. destruct z as [|p|p].
  - simpl. rewrite list_elem_of_singleton. done.
  - apply HN.
  - rewrite chars_app. simpl. apply not_elem_of_cons. split; [done|]. apply HN.
Qed.

Lemma sign_no_eq s : "="%char ∉ chars (Float.sign s).
Proof.
  destruct s; simpl; [rewrite list_elem_of_singleton; done|apply not_elem_of_nil].
Qed.

Lemma format_1f_no_eq v : "="%char ∉ chars (Float.format_1f v).
Proof.
  unfold Float.format_1f. destruct (Prim2SF v) as [s|s| |s m e];
    rewrite ?chars_app, ?not_elem_of_app; simpl;
    repeat split; auto using sign_no_eq, pretty_Z_no_eq;
    rewrite ?not_elem_of_cons; repeat split; try done; apply not_elem_of_nil.
Qed.

Lemma header_no_eq pm25 :
  "="%char ∉ chars ("Latest indicative AQI (by PM2.5): " +:+ indicative_aqi pm25).
Proof.
  apply (bool_decide_unpack _). unfold indicative_aqi.
  repeat case_match; by vm_compute.
Qed.

Lemma infix_elem_of n l c :
  c ∈ n → (∃ pre suf, l = pre ++ n ++ suf) → c ∈ l.
Proof. intros Hc (pre & suf & ->). rewrite !elem_of_app. auto. Qed.

Ltac tracked_cases H :=
  unfold tracked in H;
  repeat (apply elem_of_cons in H as [->|H]); [..|by apply elem_of_nil in H].

Lemma tracked_suffix k k' :
  k ∈ tracked → k' ∈ tracked →
  suffix (chars (upper k)) (chars (upper k')) → k = k'.
Proof.
  intros Hk Hk' Hs. apply (bool_decide_pack _) in Hs.
  tracked_cases Hk; tracked_cases Hk'; by vm_compute in Hs.
Qed.

Lemma tracked_needle k :
  k ∈ tracked →
  chars (upper k +:+ "=") ≠ [] ∧
  (";"%char ∉ chars (upper k +:+ "=")) ∧
  (" "%char ∉ chars (upper k +:+ "=")).
Proof.
  intros Hk. tracked_cases Hk;
    (split; [done|split]; apply (bool_decide_unpack _); by vm_compute).
Qed.

Lemma tracked_no_eq k : k ∈ tracked → "="%char ∉ chars (upper k).
Proof.
  intros Hk. tracked_cases Hk; apply (bool_decide_unpack _); by vm_compute.
Qed.

(** A field named in the summary text is one of its parts. *)
Lemma contains_field df k :
  k ∈ tracked →
  Str.contains (upper k +:+ "=") (compose_context_summary df) →
  ∃ x, upper k +:+ "=" +:+ x ∈ summary_parts df.
Proof.
  intros Hk Hin%contains_chars. unfold compose_context_summary in Hin.
  assert ("="%char ∈ chars (upper k +:+ "=")) as Heq.
  { rewrite chars_app, elem_of_app. right. apply list_elem_of_here. }
  destruct (empty df).
  { pose proof (infix_elem_of _ _ _ Heq Hin) as Habs.
    by apply (bool_decide_pack _) in Habs. }
  destruct (tracked_needle k Hk) as (Hne & Hsemi & Hspace).
  apply infix_join in Hin as (p & Hp & Hin); [|done..].
  revert Hp Hin. rewrite summary_parts_described.
  destruct (Described.latest_timestamp df) as [t|].
  - intros [->|Hp]%elem_of_cons Hin.
    { destruct (header_no_eq (Some (Described.averaged df t "pm25"))).
      by apply (infix_elem_of _ _ _ Heq Hin). }
    apply list_elem_of_omap in Hp as (k' & Hk' & Hf). unfold Described.field in Hf.
    destruct (Float.is_nan (Described.averaged df t k')) eqn:Hm; [done|].
    simplify_eq. destruct Hin as (pre & suf & Hin).
    rewrite !chars_app in Hin. simpl in Hin.
    replace (pre ++ (chars (upper k) ++ ["="%char]) ++ suf)
      with ((pre ++ chars (upper k)) ++ "="%char :: suf) in Hin
      by (by rewrite <-!(assoc_L (++))).
    symmetry in Hin.
    apply (cut_unique _ _ _ _ "="%char) in Hin;
      [|by apply tracked_no_eq|apply format_1f_no_eq].
    assert (k = k') as <-.
    { apply tracked_suffix; [done..|]. by exists pre. }
    exists (Float.format_1f (Described.averaged df t k)).
    apply list_elem_of_further, list_elem_of_omap. exists k. split; [done|].
    unfold Described.field. by rewrite Hm.
  - intros ->%list_elem_of_singleton Hin.
    destruct (header_no_eq None). by apply (infix_elem_of _ _ _ Heq Hin).
Qed.

Lemma readings_two t loc1 loc2 unit1 unit2 k :
  Described.readings (Sample.two_readings t loc1 loc2 unit1 unit2) t k =
  (if decide (k = "pm25") then [10.0%float] else []) ++
  (if decide (k = "no2") then [20.0%float] else []).
Proof.
  unfold Described.readings, Sample.two_readings. simpl.
  destruct (decide (k = "pm25")) as [->|Hpm]; simpl.
  - rewrite decide_True by done. by rewrite decide_False by (by intros [_ ?]).
  - rewrite decide_False by (intros [_ ?]; congruence).
    destruct (decide (k = "no2")) as [->|Hno].
    + by rewrite decide_True by done.
    + by rewrite decide_False by (intros [_ ?]; congruence).
Qed.

Lemma readings_two_reverse t loc1 loc2 unit1 unit2 k :
  Described.readings (reverse (Sample.two_readings t loc1 loc2 unit1 unit2)) t k =
  (if decide (k = "no2") then [20.0%float] else []) ++
  (if decide (k = "pm25") then [10.0%float] else []).
Proof.
  unfold Described.readings, Sample.two_readings. simpl.
  destruct (decide (k = "no2")) as [->|Hno]; simpl.
  - rewrite decide_True by done. by rewrite decide_False by (by intros [_ ?]).
  - rewrite decide_False by (intros [_ ?]; congruence).
    destruct (decide (k = "pm25")) as [->|Hpm].
    + by rewrite decide_True by done.
    + by rewrite decide_False by (intros [_ ?]; congruence).
Qed.

Lemma averaged_two t loc1 loc2 unit1 unit2 k :
  Described.averaged (Sample.two_readings t loc1 loc2 unit1 unit2) t k =
  Pandas.mean ((if decide (k = "pm25") then [10.0%float] else []) ++
               (if decide (k = "no2") then [20.0%float] else [])).
Proof. unfold Described.averaged. by rewrite readings_two. Qed.

Lemma averaged_two_reverse t loc1 loc2 unit1 unit2 k :
  Described.averaged (reverse (Sample.two_readings t loc1 loc2 unit1 unit2)) t k =
  Pandas.mean ((if decide (k = "no2") then [20.0%float] else []) ++
               (if decide (k = "pm25") then [10.0%float] else [])).
Proof. unfold Described.averaged. by rewrite readings_two_reverse. Qed.

Lemma latest_two t loc1 loc2 unit1 unit2 :
  Described.latest_timestamp (Sample.two_readings t loc1 loc2 unit1 unit2) = Some t.
Proof.
  unfold Described.latest_timestamp, Described.latest_in, Described.reports.
  unfold Sample.two_readings at 2. cbn [foldr datetime parameter].
  rewrite !averaged_two. simpl. by rewrite Z.max_id.
Qed.

Lemma latest_two_reverse t loc1 loc2 unit1 unit2 :
  Described.latest_timestamp (reverse (Sample.two_readings t loc1 loc2 unit1 unit2)) =
  Some t.
Proof.
  unfold Described.latest_timestamp, Described.latest_in, Described.reports.
  unfold Sample.two_readings at 2. cbn [reverse rev_append foldr datetime parameter].
  rewrite !averaged_two_reverse. simpl. by rewrite Z.max_id.
Qed.

Lemma tracked_field_inj k k' x y :
  k ∈ tracked → k' ∈ tracked →
  upper k' +:+ "=" +:+ x = upper k +:+ "=" +:+ y → k' = k ∧ x = y.
Proof.
  unfold tracked. intros Hk Hk' Heq.
  repeat (apply elem_of_cons in Hk as [->|Hk]); [..|by apply elem_of_nil in Hk];
    (repeat (apply elem_of_cons in Hk' as [->|Hk']); [..|by apply elem_of_nil in Hk']);
    vm_compute in Heq; by simplify_eq.
Qed.

Lemma tracked_field_not_header k x band :
  k ∈ tracked →
  upper k +:+ "=" +:+ x ≠ "Latest indicative AQI (by PM2.5): " +:+ band.
Proof.
  unfold tracked. intros Hk Heq.
  repeat (apply elem_of_cons in Hk as [->|Hk]); [..|by apply elem_of_nil in Hk];
    vm_compute in Heq; by simplify_eq.
Qed.

(** A field among the parts of the summary has a non-null reading behind it. *)
Lemma field_has_reading df k x :
  k ∈ tracked →
  upper k +:+ "=" +:+ x ∈ summary_parts df →
  ∃ t r, Described.latest_timestamp df = Some t ∧
         r ∈ df ∧ datetime r = Some t ∧ parameter r = Some k ∧
         Float.is_nan (value r) = false.
Proof.
  intros Hk. rewrite summary_parts_described.
  destruct (Described.latest_timestamp df) as [t|] eqn:Ht.
  - intros [Hhd|Hin]%elem_of_cons; [by apply tracked_field_not_header in Hhd|].
    apply list_elem_of_omap in Hin as (k' & Hk' & Hf). unfold Described.field in Hf.
    destruct (Float.is_nan (Described.averaged df t k')) eqn:Hm; [done|].
    simplify_eq. apply tracked_field_inj in Hf as [-> _]; [|done..].
    unfold Described.averaged in Hm. rewrite <-group_readings in Hm.
    destruct (mean_not_nan _ Hm)
      as (v & (r & Hr & [??]%key_of_Some & <-)%elem_of_group & Hv).
    eauto 10.
  - intros [Hhd|Hin]%elem_of_cons;
      [by apply tracked_field_not_header in Hhd|by apply elem_of_nil in Hin].
Qed.

(** C2 (amended). A table with one timestamp, pm25 = 10.0 and no2 = 20.0
    (in either row order) is summarized as
    "Latest indicative AQI (by PM2.5): Good; PM25=10.0; NO2=20.0"; and for
    every table, the field of a tracked pollutant ("PM25=", "NO2=", ...)
    occurs in the text of the summary only when the table has a non-null
    reading of that pollutant at the latest timestamp at which some
    pollutant has a non-null average (a timestamp whose readings are all
    null is skipped). *)
Theorem compose_context_summary_fields :
  (∀ t loc1 loc2 unit1 unit2,
     compose_context_summary (Sample.two_readings t loc1 loc2 unit1 unit2) =
       "Latest indicative AQI (by PM2.5): Good; PM25=10.0; NO2=20.0" ∧
     compose_context_summary (reverse (Sample.two_readings t loc1 loc2 unit1 unit2)) =
       "Latest indicative AQI (by PM2.5): Good; PM25=10.0; NO2=20.0") ∧
  (∀ df k,
     k ∈ tracked →
     Str.contains (upper k +:+ "=") (compose_context_summary df) →
     ∃ t r, Described.latest_timestamp df = Some t ∧
            r ∈ df ∧ datetime r = Some t ∧ parameter r = Some k ∧
            Float.is_nan (value r) = false).
Proof.
  split.
  - intros t loc1 loc2 unit1 unit2.
    unfold compose_context_summary. simpl empty. cbv iota.
    rewrite !summary_parts_described, latest_two, latest_two_reverse.
    unfold tracked, Described.field. cbn [omap list_omap].
    rewrite !averaged_two, !averaged_two_reverse. by vm_compute.
  - intros df k Hk [x Hx]%contains_field; [|done].
    by apply (field_has_reading df k x).
Qed.

End reading_back.

Lemma compose_context_summary_described_witness :
  Sample.two_hours ≠ [] ∧
  compose_context_summary Sample.two_hours =
    "Latest indicative AQI (by PM2.5): Unhealthy for Sensitive Groups; PM25=38.1" ∧
  Described.summary "Latest indicative AQI (by PM2.5): " Sample.two_hours =
    "Latest indicative AQI (by PM2.5): Unhealthy for Sensitive Groups; PM25=38.1".
Proof.
  split; [done|].
  rewrite (compose_context_summary_described Sample.two_hours) by done.
  split; by vm_compute.
Defined.

(** The summary is not the one of the original wording, on two counts: the
    header has "(by PM2.5)"; and on a table whose latest timestamp (7200) has
    a null PM2.5 reading only, where the wording gives the band "Unknown" and
    no field, the summary is that of the hour before. *)
Lemma compose_context_summary_wording_counterexample :
  (compose_context_summary Sample.one_timestamp =
     "Latest indicative AQI (by PM2.5): Good; PM25=10.0; NO2=20.0" ∧
   Described.summary "Latest indicative AQI: " Sample.one_timestamp =
     "Latest indicative AQI: Good; PM25=10.0; NO2=20.0" ∧
   String.eqb (compose_context_summary Sample.one_timestamp)
              (Described.summary "Latest indicative AQI: " Sample.one_timestamp) = false) ∧
  (Described.latest_keyed Sample.null_latest = Some 7200%Z ∧
   indicative_aqi (Some (Described.averaged Sample.null_latest 7200 "pm25")) = "Unknown" ∧
   omap (Described.field Sample.null_latest 7200) tracked = [] ∧
   compose_context_summary Sample.null_latest =
     "Latest indicative AQI (by PM2.5): Good; PM25=10.0").
Proof. split; by vm_compute. Qed.

(** On the same table the summary has a PM25 field although no row of the
    latest timestamp of the table (7200) has a non-null PM2.5 reading. *)
Lemma compose_context_summary_null_latest_counterexample :
  Str.contains "PM25=" (compose_context_summary Sample.null_latest) ∧
  Described.latest_keyed Sample.null_latest = Some 7200%Z ∧
  Forall (λ r, datetime r = Some 7200%Z → parameter r = Some "pm25" →
               Float.is_nan (value r) = true) Sample.null_latest.
Proof.
  split; [by exists "Latest indicative AQI (by PM2.5): Good; ", "10.0"|].
  split; [by vm_compute|].
  apply Forall_cons; split; [done|].
  apply Forall_cons; split; [|done]. by intros [=].
Qed.

(** A timestamp whose readings are all null is no row of the pivot (the
    groups without a mean are dropped), so the summary is that of the latest
    timestamp that kept a reading. *)
Example null_latest_skipped :
  compose_context_summary
    [Sample.reading 7200 "pm25" PrimFloat.nan; Sample.reading 3600 "pm25" 10.0%float] =
  "Latest indicative AQI (by PM2.5): Good; PM25=10.0".
Proof. by vm_compute. Qed.

Lemma compose_context_summary_empty_witness :
  empty [] = true ∧ compose_context_summary [] = "No recent measurements found.".
Proof. split; [done|]. by apply (compose_context_summary_empty []). Defined.

Lemma compose_context_summary_fields_witness :
  compose_context_summary Sample.one_timestamp =
    "Latest indicative AQI (by PM2.5): Good; PM25=10.0; NO2=20.0" ∧
  Str.contains "NO2=" (compose_context_summary Sample.one_timestamp) ∧
  ∃ t r, Described.latest_timestamp Sample.one_timestamp = Some t ∧
         r ∈ Sample.one_timestamp ∧ datetime r = Some t ∧
         parameter r = Some "no2" ∧ Float.is_nan (value r) = false.
Proof.
  assert (Str.contains "NO2=" (compose_context_summary Sample.one_timestamp)) as Hin.
  { by exists "Latest indicative AQI (by PM2.5): Good; PM25=10.0; ", "20.0". }
  split; [|split; [done|]].
  - exact (proj1 (proj1 compose_context_summary_fields 1700000000%Z
                    (Some "Jaipur") (Some "Jaipur") (Some "ug/m3") (Some "ug/m3"))).
  - apply (proj2 compose_context_summary_fields Sample.one_timestamp "no2"); [|done].
    unfold tracked. set_solver.
Defined.

(** ** Dashboard *)

Section dashboard.

Variable frame_of_rows : list raw_row → exc DataFrame.

Lemma fetch_openaq_failure http :
  http_failure http → ∃ e, fetch_openaq frame_of_rows http = Raise e.
Proof.
  unfold fetch_openaq, raise_for_status. destruct http as [r|e]; simpl; [|eauto].
  intros Hr. case_bool_decide; simpl; [eauto|].
  rewrite bool_decide_true by lia. simpl. eauto.
Qed.

(** The render of a fetch that raised, in a run where [df] is not bound. *)
Lemma render_dashboard_raise e w :
  local_df w = None →
  render_dashboard (Raise e) w =
  (Return (compose_context_summary []),
   {| local_df := None;
      screen := screen w ++ [StatusError ("Data fetch error: " +:+ e);
                             Metric "Summary" "No recent measurements found."];
      chat_history := chat_history w;
      api_calls := api_calls w |}).
Proof.
  intros Hdf. unfold render_dashboard, mbind, script_bind, try_except, try_fetch.
  simpl. unfold df_or_empty. simpl. rewrite Hdf. simpl.
  by rewrite <-(assoc_L (++)).
Qed.

(** C7 (amended). When the request suffers a network failure or is answered
    with a 4xx or 5xx status, the fetcher raises; the render of a fresh run
    catches the exception, shows it as an inline error and returns normally,
    with the context summary computed from an empty table, which is the
    no-data sentence. *)
Theorem fetch_failure_contained http w :
  http_failure http →
  local_df w = None →
  ∃ e w',
    fetch_openaq frame_of_rows http = Raise e ∧
    render_dashboard (fetch_openaq frame_of_rows http) w =
      (Return (compose_context_summary []), w') ∧
    compose_context_summary [] = no_data ∧
    screen w' = screen w ++ [StatusError ("Data fetch error: " +:+ e);
                             Metric "Summary" no_data] ∧
    local_df w' = None ∧
    chat_history w' = chat_history w.
Proof.
  intros [e He]%fetch_openaq_failure Hdf. exists e. eexists.
  split; [done|]. rewrite He.
  split; [by apply render_dashboard_raise|]. done.
Qed.

End dashboard.

Lemma fetch_failure_contained_witness :
  http_failure (Return Sample.server_error) ∧
  local_df Sample.earlier = None ∧
  ∃ e w',
    fetch_openaq Sample.null_frame (Return Sample.server_error) = Raise e ∧
    render_dashboard (fetch_openaq Sample.null_frame (Return Sample.server_error))
                     Sample.earlier =
      (Return (compose_context_summary []), w') ∧
    compose_context_summary [] = no_data ∧
    screen w' = screen Sample.earlier ++
                [StatusError ("Data fetch error: " +:+ e); Metric "Summary" no_data] ∧
    local_df w' = None ∧
    chat_history w' = chat_history Sample.earlier.
Proof.
  split; [simpl; lia|]. split; [done|].
  apply (fetch_failure_contained Sample.null_frame (Return Sample.server_error)
           Sample.earlier); [simpl; lia|done].
Defined.

Lemma fetch_3xx_counterexample :
  ¬ (200 ≤ status_code Sample.multiple_choices < 300)%Z ∧
  (∀ frame_of_rows,
     fetch_openaq frame_of_rows (Return Sample.multiple_choices) = Return []) ∧
  (∀ frame_of_rows,
     screen (render_dashboard
               (fetch_openaq frame_of_rows (Return Sample.multiple_choices))
               Sample.fresh).2 =
     [StatusWarning "No data for selected inputs.";
      Metric "Summary" "No recent measurements found."]).
Proof. split; [simpl; lia|]. split; intros f; reflexivity. Qed.

(** ** Chat orchestrator: instances *)

Lemma chat_submit_blank_witness :
  Str.blank "   " = true ∧
  chat_submit (Some Sample.failing_model) "Jaipur" no_data true "   " Sample.earlier =
  (Return tt, Sample.earlier).
Proof.
  split; [done|].
  by apply (chat_submit_blank (Some Sample.failing_model) "Jaipur" no_data true "   ").
Defined.

Lemma chat_submit_appends_witness :
  Str.strip "hello" ≠ "" ∧
  ∃ answer w',
    chat_submit (Some Sample.failing_model) "Jaipur" no_data true "hello" Sample.earlier
      = (Return tt, w') ∧
    chat_history w' =
      chat_history Sample.earlier ++ [("user", "hello"); ("assistant", answer)] ∧
    length (chat_history w') = length (chat_history Sample.earlier) + 2 ∧
    (∀ i entry, chat_history Sample.earlier !! i = Some entry →
                chat_history w' !! i = Some entry) ∧
    (∀ m e, Some Sample.failing_model = Some m →
            generate_content m (final_prompt "Jaipur" no_data "hello") = Raise e →
            answer = "Model error: " +:+ e ∧ Str.contains e answer).
Proof.
  split; [done|].
  by apply (chat_submit_appends (Some Sample.failing_model) "Jaipur" no_data "hello").
Defined.

Lemma chat_submit_space_counterexample :
  " " ≠ "" ∧
  chat_submit (Some Sample.failing_model) "Jaipur" no_data true " " Sample.earlier =
    (Return tt, Sample.earlier) ∧
  length (chat_history Sample.earlier) ≠ length (chat_history Sample.earlier) + 2.
Proof. split; [done|]. split; [reflexivity|simpl; lia]. Qed.

Lemma chat_submit_no_text_witness :
  Str.strip "hello" ≠ "" ∧
  ∃ w',
    chat_submit (Some Sample.mute_model) "Jaipur" no_data true "hello" Sample.fresh
      = (Return tt, w') ∧
    chat_history w' =
      chat_history Sample.fresh ++ [("user", "hello"); ("assistant", "No response.")].
Proof.
  split; [done|].
  by apply (chat_submit_no_text Sample.mute_model {| text := NoAttribute |}
              "Jaipur" no_data "hello" Sample.fresh).
Defined.

Lemma chat_submit_not_configured_witness :
  Str.strip "hello" ≠ "" ∧
  ∃ w',
    chat_submit (setup_model None (Return Sample.mute_model)) "Jaipur" no_data true
                "hello" Sample.fresh = (Return tt, w') ∧
    chat_history w' =
      chat_history Sample.fresh ++
      [("user", "hello");
       ("assistant", "Gemini is not configured. Please set GEMINI_API_KEY.")] ∧
    api_calls w' = api_calls Sample.fresh.
Proof.
  split; [done|].
  apply (chat_submit_not_configured None (Return Sample.mute_model) "Jaipur" no_data
           "hello" Sample.fresh); [by left|done].
Defined.

Lemma chat_submit_not_configured_space_counterexample :
  " " ≠ "" ∧
  chat_submit (setup_model None (Return Sample.mute_model)) "Jaipur" no_data true
              " " Sample.fresh =
  (Return tt, Sample.fresh) ∧
  chat_history Sample.fresh = [].
Proof. split; [done|]. split; reflexivity. Qed.

(** * Further properties *)

(** ** The ladder as a whole *)

Section ladder.

Lemma SFleb_trans a b c :
  SFleb a b = true → SFleb b c = true → SFleb a c = true.
Proof.
  unfold SFleb.
  destruct a as [sa|sa| |sa ma ea], b as [sb|sb| |sb mb eb],
    c as [sc|sc| |sc mc ec]; simpl; try done;
    try (by destruct sa); try (by destruct sb); try (by destruct sc);
    try (by destruct sa, sb); try (by destruct sb, sc); try (by destruct sa, sc);
    try (by destruct sa, sb, sc).
  change (Pos.compare_cont Eq) with Pos.compare.
  destruct sa, sb, sc; try done;
    destruct (Z.compare_spec ea eb), (Z.compare_spec eb ec),
      (Z.compare_spec ea ec); try done; try lia; subst;
    destruct (Pos.compare_spec ma mb), (Pos.compare_spec mb mc),
      (Pos.compare_spec ma mc); simpl; try done; try lia.
Qed.

Lemma leb_trans (a b c : float) :
  PrimFloat.leb a b = true → PrimFloat.leb b c = true → PrimFloat.leb a c = true.
Proof. rewrite !FloatAxioms.leb_spec. apply SFleb_trans. Qed.

Lemma leb_not_nan_r (a v : float) :
  PrimFloat.leb a v = true → Float.is_nan v = false.
Proof.
  unfold Float.is_nan, PrimFloat.is_nan.
  rewrite FloatAxioms.leb_spec, FloatAxioms.eqb_spec. unfold SFleb, SFeqb.
  destruct (Prim2SF v) as [s|s| |s m e]; simpl; try done.
  - by destruct s.
  - by destruct (Prim2SF a) as [| | |].
  - rewrite Z.compare_refl, Pos.compare_cont_refl. by destruct s.
Qed.

(** X1. The banding is monotone: of two readings, the larger one is never
    in a milder band. *)
Theorem indicative_aqi_monotone (v1 v2 : float) :
  PrimFloat.leb v1 v2 = true →
  severity (indicative_aqi (Some v1)) ≤ severity (indicative_aqi (Some v2)).
Proof.
  intros Hle.
  assert (∀ c, PrimFloat.leb v2 c = true → PrimFloat.leb v1 c = true) as Hm
    by (intros c; by apply leb_trans).
  unfold indicative_aqi.
  rewrite (leb_not_nan _ _ Hle), (leb_not_nan_r _ _ Hle).
  destruct (PrimFloat.leb v2 Float.c12) eqn:E1; [by rewrite (Hm _ E1)|].
  destruct (PrimFloat.leb v2 Float.c35_4) eqn:E2;
    [rewrite (Hm _ E2); repeat case_match; compute; lia|].
  destruct (PrimFloat.leb v2 Float.c55_4) eqn:E3;
    [rewrite (Hm _ E3); repeat case_match; compute; lia|].
  destruct (PrimFloat.leb v2 Float.c150_4) eqn:E4;
    [rewrite (Hm _ E4); repeat case_match; compute; lia|].
  destruct (PrimFloat.leb v2 Float.c250_4) eqn:E5;
    [rewrite (Hm _ E5); repeat case_match; compute; lia|].
  repeat case_match; compute; lia.
Qed.

(** X2. "Unknown" is the answer exactly for an absent or NaN reading. *)
Theorem indicative_aqi_unknown_iff (pm25 : option float) :
  indicative_aqi pm25 = "Unknown" ↔ isna pm25 = true.
Proof.
  split.
  - destruct pm25 as [v|]; [|done]. unfold indicative_aqi, isna.
    destruct (Float.is_nan v); [done|]. by repeat case_match.
  - destruct pm25 as [v|]; simpl; [|done]. by intros ->.
Qed.

End ladder.

Lemma indicative_aqi_monotone_witness :
  (10.0 <=? 40.0)%float = true ∧
  severity (indicative_aqi (Some 10.0%float)) ≤ severity (indicative_aqi (Some 40.0%float)).
Proof.
  split; [reflexivity|]. apply (indicative_aqi_monotone 10.0%float 40.0%float). reflexivity.
Defined.

(** ** Reading the response *)

Section fetch_more.

Variable frame_of_rows : list raw_row → exc DataFrame.

Lemma raise_for_status_ok r : status_ok r → raise_for_status r = Return tt.
Proof.
  unfold status_ok, raise_for_status. intros Hr.
  rewrite !bool_decide_false by lia. done.
Qed.

Lemma row_of_item_well_formed item :
  well_formed_item item → ∃ row, row_of_item item = Return row.
Proof.
  destruct item as [| | | | | |fields]; try done. unfold row_of_item. simpl.
  destruct (Json.lookup "date" fields) as [[| | | | | |date]|]; try done; simpl; eauto.
Qed.

Lemma row_of_item_malformed item :
  ¬ well_formed_item item → ∃ e, row_of_item item = Raise e.
Proof.
  destruct item as [| | | | | |fields]; simpl; try (intros _; by eauto).
  unfold row_of_item. simpl.
  destruct (Json.lookup "date" fields) as [[| | | | | |date]|]; simpl;
    first [by intros _; eauto | by intros H; destruct H].
Qed.

Lemma rows_of_items_well_formed items :
  Forall well_formed_item items →
  ∃ rows, rows_of_items items = Return rows ∧
          Forall2 (λ item row, row_of_item item = Return row) items rows.
Proof.
  induction 1 as [|item items Hitem _ (rows & Hrows & Hall)]; simpl.
  - exists []. by split.
  - destruct (row_of_item_well_formed _ Hitem) as [row Hrow].
    exists (row :: rows). rewrite Hrow. simpl. rewrite Hrows. simpl.
    split; [done|]. by constructor.
Qed.

Lemma rows_of_items_malformed items :
  Exists (λ item, ¬ well_formed_item item) items →
  ∃ e, rows_of_items items = Raise e.
Proof.
  induction 1 as [item items Hitem|item items _ [e He]]; simpl.
  - destruct (row_of_item_malformed _ Hitem) as [e ->]. simpl. eauto.
  - destruct (row_of_item item) as [row|e']; simpl; [|eauto].
    rewrite He. simpl. eauto.
Qed.

Lemma fetch_openaq_items r top items :
  status_ok r →
  body r = Return (JObj top) →
  Json.lookup "results" top = Some (JArr items) →
  items ≠ [] →
  fetch_openaq frame_of_rows (Return r) = rows_of_items items ≫= frame_of_rows.
Proof.
  intros Hr Hbody Hres Hne.
  unfold fetch_openaq. simpl. rewrite (raise_for_status_ok _ Hr). simpl.
  rewrite Hbody. simpl. rewrite Hres. simpl.
  by destruct items as [|item items'].
Qed.

(** X3. For a response that passes the status check and lists well-formed
    items, the table is built from exactly one row per item, in the order of
    the response. *)
Theorem fetch_openaq_rows r top items :
  status_ok r →
  body r = Return (JObj top) →
  Json.lookup "results" top = Some (JArr items) →
  items ≠ [] →
  Forall well_formed_item items →
  ∃ rows,
    fetch_openaq frame_of_rows (Return r) = frame_of_rows rows ∧
    Forall2 (λ item row, row_of_item item = Return row) items rows.
Proof.
  intros Hr Hbody Hres Hne Hall.
  destruct (rows_of_items_well_formed _ Hall) as (rows & Hrows & Hrel).
  exists rows. split; [|done].
  rewrite (fetch_openaq_items r top items) by done. by rewrite Hrows.
Qed.

(** X4. One item that is no dict, or whose "date" is there but is no dict
    (an explicit null, say), makes the whole fetch raise: no table is built
    from the other items. *)
Theorem fetch_openaq_malformed_item r top items :
  status_ok r →
  body r = Return (JObj top) →
  Json.lookup "results" top = Some (JArr items) →
  Exists (λ item, ¬ well_formed_item item) items →
  ∃ e, fetch_openaq frame_of_rows (Return r) = Raise e.
Proof.
  intros Hr Hbody Hres Hbad.
  destruct (rows_of_items_malformed _ Hbad) as [e He].
  exists e. rewrite (fetch_openaq_items r top items); [by rewrite He|done..|].
  intros ->. by apply Exists_nil in Hbad.
Qed.

(** X5. A key an item lacks becomes a null cell: each cell is the value
    under its key, or null; the timestamp is null when "date" is missing or
    has no "utc". *)
Theorem row_of_item_missing_fields fields row :
  row_of_item (JObj fields) = Return row →
  raw_location row = default JNull (Json.lookup "location" fields) ∧
  raw_parameter row = default JNull (Json.lookup "parameter" fields) ∧
  raw_value row = default JNull (Json.lookup "value" fields) ∧
  raw_unit row = default JNull (Json.lookup "unit" fields) ∧
  (Json.lookup "date" fields = None → raw_datetime row = JNull) ∧
  (∀ date, Json.lookup "date" fields = Some (JObj date) →
           raw_datetime row = default JNull (Json.lookup "utc" date)).
Proof.
  unfold row_of_item. simpl.
  destruct (Json.lookup "date" fields) as [[| | | | | |date]|]; simpl; try done;
    intros ?; simplify_eq/=; repeat split; try done;
    intros; by simplify_eq.
Qed.

(** X6. A document without "results", or with an empty or otherwise falsy
    one, gives the empty table. *)
Theorem fetch_openaq_no_results r top :
  status_ok r →
  body r = Return (JObj top) →
  from_option Json.truthy false (Json.lookup "results" top) = false →
  fetch_openaq frame_of_rows (Return r) = Return [].
Proof.
  intros Hr Hbody Hres.
  unfold fetch_openaq. simpl. rewrite (raise_for_status_ok _ Hr). simpl.
  rewrite Hbody. simpl.
  destruct (Json.lookup "results" top) as [data|]; simpl in *; [|done].
  by rewrite Hres.
Qed.

(** X7. A body that decodes to anything but a dict makes the fetch raise
    on [.get]. *)
Theorem fetch_openaq_not_an_object r doc :
  status_ok r →
  body r = Return doc →
  (∀ top, doc ≠ JObj top) →
  fetch_openaq frame_of_rows (Return r) =
  Raise ("'" +:+ Json.type_name doc +:+ "' object has no attribute 'get'").
Proof.
  intros Hr Hbody Hdoc.
  unfold fetch_openaq. simpl. rewrite (raise_for_status_ok _ Hr). simpl.
  rewrite Hbody. simpl.
  destruct doc; try done. by destruct (Hdoc fields).
Qed.

(** X8. "results" that is truthy but no list (a number, a string, a dict)
    makes the fetch raise. *)
Theorem fetch_openaq_results_not_a_list r top data :
  status_ok r →
  body r = Return (JObj top) →
  Json.lookup "results" top = Some data →
  Json.truthy data = true →
  (∀ items, data ≠ JArr items) →
  ∃ e, fetch_openaq frame_of_rows (Return r) = Raise e.
Proof.
  intros Hr Hbody Hres Htrue Hdata.
  unfold fetch_openaq. simpl. rewrite (raise_for_status_ok _ Hr). simpl.
  rewrite Hbody. simpl. rewrite Hres. simpl. rewrite Htrue. simpl.
  destruct data as [|b|n|x|s|items|fields]; simpl; eauto.
  - destruct s as [|c s]; [done|]. simpl. eauto.
  - by destruct (Hdata items).
  - destruct fields as [|[k v] fields]; [done|].
    assert (∃ k' ks, remove_dups ((k, v) :: fields).*1 = k' :: ks) as (k' & ks & ->).
    { destruct (remove_dups _) as [|k' ks] eqn:Hnil; [|eauto].
      assert (k ∈ remove_dups ((k, v) :: fields).*1) as Hin
        by (apply elem_of_remove_dups, list_elem_of_here).
      rewrite Hnil in Hin. by apply elem_of_nil in Hin. }
    simpl. eauto.
Qed.

End fetch_more.

Lemma fetch_openaq_rows_witness :
  status_ok (More.ok_response (JObj (More.results [More.item_full; More.item_bare]))) ∧
  ∃ rows,
    fetch_openaq Sample.null_frame
      (Return (More.ok_response (JObj (More.results [More.item_full; More.item_bare])))) =
      Sample.null_frame rows ∧
    Forall2 (λ item row, row_of_item item = Return row)
            [More.item_full; More.item_bare] rows.
Proof.
  assert (status_ok (More.ok_response
            (JObj (More.results [More.item_full; More.item_bare])))) as Hok
    by (unfold status_ok; simpl; lia).
  split; [exact Hok|].
  apply (fetch_openaq_rows Sample.null_frame _
           (More.results [More.item_full; More.item_bare])
           [More.item_full; More.item_bare] Hok); [reflexivity|reflexivity|done|].
  repeat constructor.
Defined.

Lemma fetch_openaq_malformed_item_witness :
  Exists (λ item, ¬ well_formed_item item) [More.item_full; More.item_null_date] ∧
  ∃ e, fetch_openaq Sample.null_frame
         (Return (More.ok_response
            (JObj (More.results [More.item_full; More.item_null_date])))) = Raise e.
Proof.
  assert (Exists (λ item, ¬ well_formed_item item)
            [More.item_full; More.item_null_date]) as Hbad.
  { apply Exists_cons_tl, Exists_cons_hd. simpl. tauto. }
  split; [exact Hbad|].
  apply (fetch_openaq_malformed_item Sample.null_frame _
           (More.results [More.item_full; More.item_null_date])
           [More.item_full; More.item_null_date]);
    [unfold status_ok; simpl; lia|reflexivity|reflexivity|exact Hbad].
Defined.

Lemma row_of_item_missing_fields_witness :
  row_of_item More.item_bare =
    Return {| raw_datetime := JNull; raw_location := JNull;
              raw_parameter := JStr "no2"; raw_value := JNull; raw_unit := JNull |} ∧
  raw_location {| raw_datetime := JNull; raw_location := JNull;
                  raw_parameter := JStr "no2"; raw_value := JNull; raw_unit := JNull |} =
    default JNull (Json.lookup "location" [("parameter", JStr "no2")]).
Proof.
  split; [reflexivity|].
  exact (proj1 (row_of_item_missing_fields [("parameter", JStr "no2")] _ eq_refl)).
Defined.

Lemma fetch_openaq_no_results_witness :
  status_ok (More.ok_response (JObj [("meta", JObj [])])) ∧
  fetch_openaq Sample.null_frame (Return (More.ok_response (JObj [("meta", JObj [])]))) =
  Return [].
Proof.
  split; [unfold status_ok; simpl; lia|].
  apply (fetch_openaq_no_results Sample.null_frame _ [("meta", JObj [])]);
    [unfold status_ok; simpl; lia|reflexivity|reflexivity].
Defined.

Lemma fetch_openaq_not_an_object_witness :
  status_ok (More.ok_response (JArr [])) ∧
  fetch_openaq Sample.null_frame (Return (More.ok_response (JArr []))) =
  Raise "'list' object has no attribute 'get'".
Proof.
  split; [unfold status_ok; simpl; lia|].
  apply (fetch_openaq_not_an_object Sample.null_frame _ (JArr []));
    [unfold status_ok; simpl; lia|reflexivity|done].
Defined.

Lemma fetch_openaq_results_not_a_list_witness :
  Json.truthy (JStr "none") = true ∧
  ∃ e, fetch_openaq Sample.null_frame
         (Return (More.ok_response (JObj [("results", JStr "none")]))) = Raise e.
Proof.
  split; [reflexivity|].
  apply (fetch_openaq_results_not_a_list Sample.null_frame _
           [("results", JStr "none")] (JStr "none"));
    [unfold status_ok; simpl; lia|reflexivity|reflexivity|reflexivity|done].
Defined.

(** ** The dashboard on any fetch *)

Section dashboard_more.

Abbreviation chars := String.list_ascii_of_string (only parsing).

Lemma truthy_app a b : Str.truthy a = true → Str.truthy (a +:+ b) = true.
Proof. by destruct a. Qed.

Lemma foldl_add_part_head vals ks parts :
  ∃ rest, foldl (add_part vals) parts ks = parts ++ rest.
Proof.
  revert parts. induction ks as [|k ks IH]; intros parts; simpl.
  - exists []. by rewrite app_nil_r.
  - destruct (IH (add_part vals parts k)) as [rest ->]. unfold add_part.
    destruct (vals !! k) as [v|]; [destruct (negb (Float.is_nan v))|]; eauto.
    rewrite <-(assoc_L (++)). eauto.
Qed.

Lemma summary_parts_head df :
  ∃ rest, summary_parts df =
          ("Latest indicative AQI (by PM2.5): " +:+
             indicative_aqi (latest_vals df !! "pm25")) :: rest.
Proof. unfold summary_parts. apply foldl_add_part_head. Qed.

Lemma join_head sep p rest :
  join sep (p :: rest) = p ∨ ∃ tail, join sep (p :: rest) = p +:+ sep +:+ tail.
Proof. destruct rest; simpl; eauto. Qed.

Lemma compose_context_summary_truthy df :
  Str.truthy (compose_context_summary df) = true.
Proof.
  unfold compose_context_summary. destruct (empty df); [done|].
  destruct (summary_parts_head df) as [rest ->].
  destruct (join_head "; " ("Latest indicative AQI (by PM2.5): " +:+
      indicative_aqi (latest_vals df !! "pm25")) rest) as [->|[tail ->]];
    by rewrite <-?(assoc_L String.app).
Qed.

Lemma before_semicolon_no_semicolon s :
  ";"%char ∉ chars s → before_semicolon s = s.
Proof.
  induction s as [|c s IH]; [done|]. simpl.
  intros [Hc Hs]%not_elem_of_cons. rewrite decide_False by done.
  by rewrite IH.
Qed.

Lemma before_semicolon_app s tail :
  ";"%char ∉ chars s → before_semicolon (s +:+ "; " +:+ tail) = s.
Proof.
  induction s as [|c s IH]; [done|].
  intros [Hc Hs]%not_elem_of_cons.
  change (String c s +:+ "; " +:+ tail) with (String c (s +:+ "; " +:+ tail)).
  simpl. rewrite decide_False by done. by rewrite IH.
Qed.

Lemma header_no_semicolon pm25 :
  ";"%char ∉ chars ("Latest indicative AQI (by PM2.5): " +:+ indicative_aqi pm25).
Proof.
  apply (bool_decide_unpack _). unfold indicative_aqi.
  repeat case_match; by vm_compute.
Qed.

Lemma headline_is_band df :
  empty df = false →
  before_semicolon (compose_context_summary df) =
  "Latest indicative AQI (by PM2.5): " +:+ indicative_aqi (latest_vals df !! "pm25").
Proof.
  intros Hdf. unfold compose_context_summary. rewrite Hdf.
  destruct (summary_parts_head df) as [rest ->].
  destruct (join_head "; " ("Latest indicative AQI (by PM2.5): " +:+
      indicative_aqi (latest_vals df !! "pm25")) rest) as [->|[tail ->]].
  - apply before_semicolon_no_semicolon, header_no_semicolon.
  - apply before_semicolon_app, header_no_semicolon.
Qed.

Lemma metric_value df :
  (if Str.truthy (compose_context_summary df)
   then before_semicolon (compose_context_summary df) else "Unknown") =
  before_semicolon (compose_context_summary df).
Proof. by rewrite compose_context_summary_truthy. Qed.

Lemma render_dashboard_run fetched w :
  let df := match fetched with
            | Return df => df
            | Raise _ => default [] (local_df w)
            end in
  render_dashboard fetched w =
  (Return (compose_context_summary df),
   {| local_df := match fetched with Return df => Some df | Raise _ => local_df w end;
      screen := screen w ++ status_widgets fetched ++
                [Metric "Summary" (before_semicolon (compose_context_summary df))];
      chat_history := chat_history w;
      api_calls := api_calls w |}).
Proof.
  Local Opaque compose_context_summary before_semicolon Str.truthy pm_rows
    mean_by_parameter.
  destruct fetched as [df|e]; intros df'; subst df';
    unfold render_dashboard, try_except, try_fetch, status_widgets;
    unfold mbind, script_bind, mret, script_ret, lift, assign_df, draw, df_or_empty;
    simpl; rewrite ?metric_value.
  - destruct (empty df); simpl; rewrite ?metric_value.
    + by rewrite <-(assoc_L (++)).
    + destruct (empty (pm_rows df)); simpl; rewrite ?metric_value;
        by rewrite <-!(assoc_L (++)).
  - by rewrite <-(assoc_L (++)).
  Local Transparent compose_context_summary before_semicolon Str.truthy pm_rows
    mean_by_parameter.
Qed.

Lemma headline_not_unknown df :
  before_semicolon (compose_context_summary df) ≠ "Unknown".
Proof.
  destruct (empty df) eqn:Hdf.
  - unfold compose_context_summary. rewrite Hdf. by vm_compute.
  - rewrite (headline_is_band df Hdf).
    generalize (indicative_aqi (latest_vals df !! "pm25")). intros band Heq.
    apply (f_equal (String.get 0)) in Heq. by vm_compute in Heq.
Qed.

(** X9. When the render of the dashboard returns, the last widget it has
    drawn is the "Summary" metric with the part of the summary before the
    first ";"; the summary is never the empty string, so the "Unknown"
    fallback of the metric is never shown; the chat log and the prompts sent
    are left alone. *)
Theorem render_dashboard_metric fetched w ctx_summary w' :
  render_dashboard fetched w = (Return ctx_summary, w') →
  ctx_summary ≠ "" ∧
  (∃ drawn, screen w' = screen w ++ drawn ∧
            last drawn = Some (Metric "Summary" (before_semicolon ctx_summary))) ∧
  before_semicolon ctx_summary ≠ "Unknown" ∧
  chat_history w' = chat_history w ∧
  api_calls w' = api_calls w.
Proof.
  rewrite render_dashboard_run. intros [= <- <-]. cbn [screen chat_history api_calls].
  split.
  { intros Heq. pose proof (compose_context_summary_truthy
      match fetched with Return df => df | Raise _ => default [] (local_df w) end) as Ht.
    by rewrite Heq in Ht. }
  split; [eexists (status_widgets fetched ++ [_]); split; [reflexivity|apply last_snoc]|].
  split; [apply headline_not_unknown|]. by split.
Qed.


(** X11. When the fetch brought rows, the render reports their number and
    always draws the bar chart of the means; it draws the line chart exactly
    when some row is a PM2.5 or PM10 reading, and then with those rows only. *)
Theorem render_dashboard_charts df w :
  empty df = false →
  ∃ drawn w',
    render_dashboard (Return df) w = (Return (compose_context_summary df), w') ∧
    screen w' = screen w ++ drawn ∧
    StatusSuccess ("Fetched " +:+ pretty (length df) +:+ " measurements.") ∈ drawn ∧
    BarChart "Average pollutant concentrations" (mean_by_parameter df) ∈ drawn ∧
    ((∃ title data, LineChart title data ∈ drawn) ↔
     ∃ r, r ∈ df ∧ (parameter r = Some "pm25" ∨ parameter r = Some "pm10")) ∧
    (∀ title data, LineChart title data ∈ drawn →
       title = "PM2.5 and PM10 over time" ∧ data = pm_rows df).
Proof.
  intros Hdf. eexists (status_widgets (Return df) ++ [_]), _.
  split; [apply (render_dashboard_run (Return df))|]. cbn [screen].
  split; [reflexivity|]. unfold status_widgets. rewrite Hdf.
  destruct (pm_rows df) as [|r0 pm] eqn:Hpm; cbn [empty app].
  - split; [apply list_elem_of_here|].
    split; [apply list_elem_of_further, list_elem_of_here|].
    split; [split|].
    + intros (title & data & Hin).
      repeat (apply elem_of_cons in Hin as [Hin|Hin]; [done|]).
      by apply elem_of_nil in Hin.
    + intros (r & Hr & Hp).
      assert (r ∈ pm_rows df) as Hin by (by apply list_elem_of_filter).
      rewrite Hpm in Hin. by apply elem_of_nil in Hin.
    + intros title data Hin.
      repeat (apply elem_of_cons in Hin as [Hin|Hin]; [done|]).
      by apply elem_of_nil in Hin.
  - split; [apply list_elem_of_here|].
    split; [do 2 apply list_elem_of_further; apply list_elem_of_here|].
    split; [split|].
    + intros _. assert (r0 ∈ pm_rows df) as [Hp Hr]%list_elem_of_filter
        by (rewrite Hpm; apply list_elem_of_here). eauto.
    + intros _. eexists _, _. apply list_elem_of_further, list_elem_of_here.
    + intros title data Hin.
      apply elem_of_cons in Hin as [Hin|Hin]; [done|].
      apply elem_of_cons in Hin as [Hin|Hin]; [by simplify_eq|].
      repeat (apply elem_of_cons in Hin as [Hin|Hin]; [done|]).
      by apply elem_of_nil in Hin.
Qed.

(** X12. The bar chart has one bar for each pollutant that some row names,
    none for a null pollutant, without repeats and in ascending order of the
    names. *)
Theorem mean_by_parameter_bars df :
  NoDup (mean_by_parameter df).*1 ∧
  Sorted String.le (mean_by_parameter df).*1 ∧
  (∀ p, p ∈ (mean_by_parameter df).*1 ↔ ∃ r, r ∈ df ∧ parameter r = Some p).
Proof.
  assert ((mean_by_parameter df).*1 =
          merge_sort String.le (remove_dups (omap parameter df))) as ->.
  { unfold mean_by_parameter. rewrite <-list_fmap_compose. apply list_fmap_id. }
  split; [|split].
  - rewrite merge_sort_Permutation. apply NoDup_remove_dups.
  - apply (Sorted_merge_sort String.le).
  - intros p. rewrite merge_sort_Permutation, elem_of_remove_dups.
    apply list_elem_of_omap.
Qed.

End dashboard_more.

Lemma render_dashboard_metric_witness :
  ∃ ctx_summary w',
    render_dashboard (Raise "Read timed out.") Sample.earlier = (Return ctx_summary, w') ∧
    ctx_summary ≠ "" ∧
    (∃ drawn, screen w' = screen Sample.earlier ++ drawn ∧
              last drawn = Some (Metric "Summary" (before_semicolon ctx_summary))) ∧
    before_semicolon ctx_summary ≠ "Unknown" ∧
    chat_history w' = chat_history Sample.earlier ∧
    api_calls w' = api_calls Sample.earlier.
Proof.
  pose proof (render_dashboard_run (Raise "Read timed out.") Sample.earlier) as Hrun.
  eexists _, _. split; [exact Hrun|].
  exact (render_dashboard_metric _ _ _ _ Hrun).
Defined.


Lemma render_dashboard_charts_witness :
  empty More.carbon_monoxide_last = false ∧
  ∃ drawn w',
    render_dashboard (Return More.carbon_monoxide_last) Sample.fresh =
      (Return (compose_context_summary More.carbon_monoxide_last), w') ∧
    screen w' = screen Sample.fresh ++ drawn ∧
    StatusSuccess ("Fetched " +:+ pretty (length More.carbon_monoxide_last) +:+
                   " measurements.") ∈ drawn ∧
    BarChart "Average pollutant concentrations"
             (mean_by_parameter More.carbon_monoxide_last) ∈ drawn ∧
    ((∃ title data, LineChart title data ∈ drawn) ↔
     ∃ r, r ∈ More.carbon_monoxide_last ∧
          (parameter r = Some "pm25" ∨ parameter r = Some "pm10")) ∧
    (∀ title data, LineChart title data ∈ drawn →
       title = "PM2.5 and PM10 over time" ∧ data = pm_rows More.carbon_monoxide_last).
Proof.
  split; [reflexivity|].
  apply (render_dashboard_charts More.carbon_monoxide_last Sample.fresh). reflexivity.
Defined.

(** ** The chat within a run *)

Section chat_more.

Lemma show_entries_run entries w :
  show_entries entries w =
  (Return tt,
   {| local_df := local_df w;
      screen := screen w ++ (show_entry <$> entries);
      chat_history := chat_history w;
      api_calls := api_calls w |}).
Proof.
  revert w. induction entries as [|entry entries IH]; intros w; simpl.
  - rewrite app_nil_r. by destruct w.
  - unfold mbind, script_bind, draw. simpl. rewrite IH. simpl.
    by rewrite <-(assoc_L (++)).
Qed.

(** X13. The transcript shows every entry of the log once, in the order of
    the log, below what is already on the screen: an entry of the user as
    "**You:** ...", any other as "**Assistant:** ..."; it changes nothing
    else. *)
Theorem show_chat_transcript w :
  ∃ w',
    show_chat w = (Return tt, w') ∧
    screen w' = screen w ++ (show_entry <$> chat_history w) ∧
    chat_history w' = chat_history w ∧
    api_calls w' = api_calls w ∧
    (∀ i role msg, chat_history w !! i = Some (role, msg) →
       screen w' !! (length (screen w) + i) =
       Some (Markdown ((if decide (role = "user") then "**You:** "
                        else "**Assistant:** ") +:+ msg))).
Proof.
  eexists. unfold show_chat, mbind, script_bind, read_chat. simpl.
  rewrite show_entries_run. split; [done|]. simpl. repeat split.
  intros i role msg Hi. rewrite lookup_app_r by lia.
  replace (length (screen w) + i - length (screen w)) with i by lia.
  rewrite list_lookup_fmap, Hi. simpl. unfold show_entry. simpl.
  by destruct (decide (role = "user")).
Qed.

(** X14. With a model configured, a submission that passes the guard sends
    exactly one prompt, the final prompt built from the system prompt, the
    city, the context and the text as typed, whatever the model answers; the
    screen and [df] are left alone. *)
Theorem chat_submit_one_call m city ctx_summary user_msg w :
  Str.strip user_msg ≠ "" →
  ∃ w',
    chat_submit (Some m) city ctx_summary true user_msg w = (Return tt, w') ∧
    api_calls w' = api_calls w ++ [final_prompt city ctx_summary user_msg] ∧
    screen w' = screen w ∧ local_df w' = local_df w.
Proof.
  intros Hs. eexists. split; [by apply chat_submit_guarded|]. done.
Qed.

(** X15. The handler leaves the state as it was exactly when the button
    was not pressed or the text is empty or whitespace only. *)
Theorem chat_submit_unchanged_iff model city ctx_summary send user_msg w :
  (chat_submit model city ctx_summary send user_msg w).2 = w ↔
  send = false ∨ Str.blank user_msg = true.
Proof.
  split.
  - destruct send; [|by left]. destruct (Str.blank user_msg) eqn:Hb; [by right|].
    assert (Str.strip user_msg ≠ "") as Hs.
    { intros Hs%strip_empty_blank. congruence. }
    rewrite (chat_submit_guarded _ _ _ _ _ Hs). simpl.
    intros Heq. apply (f_equal (λ w, length (chat_history w))) in Heq.
    simpl in Heq. rewrite length_app in Heq. simpl in Heq. lia.
  - unfold chat_submit. intros [-> | Hb%strip_empty_blank]; [done|].
    rewrite Hb. simpl. by rewrite andb_false_r.
Qed.

Lemma lstrip_cases s :
  Str.lstrip s = "" ∨ ∃ c t, Str.lstrip s = String c t ∧ Str.isspace c = false.
Proof.
  induction s as [|c s IH]; simpl; [by left|].
  destruct (Str.isspace c) eqn:Hc; [done|]. right. eauto.
Qed.

Lemma rstrip_idem s : Str.rstrip (Str.rstrip s) = Str.rstrip s.
Proof.
  induction s as [|c s IH]; [done|]. simpl.
  destruct (Str.rstrip s) as [|d r] eqn:Hr.
  - destruct (Str.isspace c) eqn:Hc; [done|]. simpl. by rewrite Hc.
  - simpl in *. by rewrite IH.
Qed.

Lemma strip_trimmed s :
  Str.lstrip (Str.strip s) = Str.strip s ∧ Str.rstrip (Str.strip s) = Str.strip s.
Proof.
  unfold Str.strip. split; [|apply rstrip_idem].
  destruct (lstrip_cases s) as [->|(c & t & -> & Hc)]; [done|].
  destruct (rstrip_head c t Hc) as [r ->]. simpl. by rewrite Hc.
Qed.

(** X16. When the model answers with text, the assistant entry is that
    text stripped: it neither starts nor ends with whitespace. *)
Theorem chat_submit_reply_trimmed m resp s city ctx_summary user_msg w :
  Str.strip user_msg ≠ "" →
  generate_content m (final_prompt city ctx_summary user_msg) = Return resp →
  text resp = Attribute s →
  ∃ answer w',
    chat_submit (Some m) city ctx_summary true user_msg w = (Return tt, w') ∧
    last (chat_history w') = Some ("assistant", answer) ∧
    answer = Str.strip s ∧
    Str.lstrip answer = answer ∧ Str.rstrip answer = answer.
Proof.
  intros Hs Hresp Htext. eexists (Str.strip s), _.
  split; [by apply chat_submit_guarded|]. simpl.
  rewrite Hresp, Htext.
  split; [by rewrite last_app|].
  split; [done|]. apply strip_trimmed.
Qed.

(** X17. In one fresh run with a model configured and a text that passes
    the guard, the prompt sent carries the summary of the table fetched in
    this very run (of the empty table when the fetch raised), the two entries
    are appended, and the transcript drawn after the dashboard shows the log
    with them. *)
Theorem run_submission fetched m city user_msg w :
  local_df w = None →
  Str.strip user_msg ≠ "" →
  let ctx_summary :=
    compose_context_summary (match fetched with Return df => df | Raise _ => [] end) in
  ∃ answer dashboard w',
    run fetched (Some m) city true user_msg w = (Return tt, w') ∧
    api_calls w' = api_calls w ++ [final_prompt city ctx_summary user_msg] ∧
    chat_history w' =
      chat_history w ++ [("user", user_msg); ("assistant", answer)] ∧
    screen w' = screen w ++ dashboard ++ (show_entry <$> chat_history w').
Proof.
  intros Hdf Hs ctx_summary.
  assert (compose_context_summary
            match fetched with Return df => df | Raise _ => default [] (local_df w) end
          = ctx_summary) as Hctx.
  { unfold ctx_summary. destruct fetched; [reflexivity|]. rewrite Hdf. reflexivity. }
  clearbody ctx_summary.
  unfold run.
  unfold mbind at 1, script_bind at 1. rewrite render_dashboard_run, Hctx.
  unfold mbind at 1, script_bind at 1.
  rewrite (chat_submit_guarded _ _ _ _ _ Hs).
  unfold show_chat, mbind, script_bind, read_chat. cbn [chat_history].
  rewrite show_entries_run. cbn [local_df screen chat_history api_calls prompts_sent].
  exists (answer_for (Some m) (final_prompt city ctx_summary user_msg)),
    (status_widgets fetched ++ [Metric "Summary" (before_semicolon ctx_summary)]).
  eexists. split; [reflexivity|].
  cbn [local_df screen chat_history api_calls].
  split; [reflexivity|]. split; [reflexivity|].
  rewrite <-!(assoc_L (++)). reflexivity.
Qed.

(** X24. A prompt goes out to the LLM API exactly when the button was
    pressed, the text is not blank, the key is set and not empty, and the
    constructor of the model returned; in particular a constructor that
    raised leaves the chat without a model although the key is set. *)
Theorem api_called_iff key new_model city ctx_summary send user_msg w :
  api_calls (chat_submit (setup_model key new_model) city ctx_summary send user_msg w).2
    ≠ api_calls w ↔
  send = true ∧ Str.blank user_msg = false ∧
  ∃ k m, key = Some k ∧ k ≠ "" ∧ new_model = Return m.
Proof.
  destruct send; [|split; [done|by intros [? _]]].
  destruct (Str.blank user_msg) eqn:Hb.
  { apply strip_empty_blank in Hb. unfold chat_submit. rewrite Hb. simpl.
    split; [done|by intros (_ & ? & _)]. }
  assert (Str.strip user_msg ≠ "") as Hs.
  { intros Hs%strip_empty_blank. congruence. }
  rewrite (chat_submit_guarded _ _ _ _ _ Hs). cbn [snd api_calls].
  destruct key as [[|c k]|]; simpl.
  - rewrite app_nil_r. split; [done|]. by intros (_ & _ & k & m & ? & ? & _); simplify_eq.
  - destruct new_model as [m|e]; simpl.
    + split.
      * intros _. split; [done|]. split; [done|]. by exists (String c k), m.
      * intros _ Heq. apply (f_equal length) in Heq.
        rewrite length_app in Heq. simpl in Heq. lia.
    + rewrite app_nil_r. split; [done|]. by intros (_ & _ & ? & ? & _ & _ & ?).
  - rewrite app_nil_r. split; [done|]. by intros (_ & _ & ? & ? & ? & _).
Qed.

End chat_more.

Lemma chat_submit_one_call_witness :
  Str.strip " hello " ≠ "" ∧
  ∃ w',
    chat_submit (Some Sample.failing_model) "Jaipur" no_data true " hello " Sample.earlier
      = (Return tt, w') ∧
    api_calls w' = api_calls Sample.earlier ++ [final_prompt "Jaipur" no_data " hello "] ∧
    screen w' = screen Sample.earlier ∧ local_df w' = local_df Sample.earlier.
Proof.
  split; [done|].
  by apply (chat_submit_one_call Sample.failing_model "Jaipur" no_data " hello ").
Defined.

Lemma chat_submit_reply_trimmed_witness :
  Str.strip "hello" ≠ "" ∧
  ∃ answer w',
    chat_submit (Some More.padded_model) "Jaipur" no_data true "hello" Sample.fresh
      = (Return tt, w') ∧
    last (chat_history w') = Some ("assistant", answer) ∧
    answer = Str.strip "  Stay indoors.  " ∧
    Str.lstrip answer = answer ∧ Str.rstrip answer = answer.
Proof.
  split; [done|].
  by apply (chat_submit_reply_trimmed More.padded_model
              {| text := Attribute "  Stay indoors.  " |} "  Stay indoors.  "
              "Jaipur" no_data "hello" Sample.fresh).
Defined.

Lemma run_submission_witness :
  local_df Sample.earlier = None ∧
  Str.strip "hello" ≠ "" ∧
  ∃ answer dashboard w',
    run (Return Sample.one_timestamp) (Some More.padded_model) "Jaipur" true "hello"
        Sample.earlier = (Return tt, w') ∧
    api_calls w' =
      api_calls Sample.earlier ++
      [final_prompt "Jaipur" (compose_context_summary Sample.one_timestamp) "hello"] ∧
    chat_history w' =
      chat_history Sample.earlier ++ [("user", "hello"); ("assistant", answer)] ∧
    screen w' = screen Sample.earlier ++ dashboard ++ (show_entry <$> chat_history w').
Proof.
  split; [done|]. split; [done|].
  by apply (run_submission (Return Sample.one_timestamp) More.padded_model "Jaipur"
              "hello" Sample.earlier).
Defined.

(** ** Which rows the summary depends on *)

Section summarizer_more.

Implicit Types (df : DataFrame) (t : Z) (k : string) (r : row).

Lemma readings_keyless df1 df2 r t k :
  keyless r →
  Described.readings (df1 ++ r :: df2) t k = Described.readings (df1 ++ df2) t k.
Proof.
  intros Hr. unfold Described.readings. rewrite !omap_app. f_equal. csimpl.
  rewrite decide_False; [done|]. intros [??]. destruct Hr; congruence.
Qed.

Lemma averaged_keyless df1 df2 r t k :
  keyless r →
  Described.averaged (df1 ++ r :: df2) t k = Described.averaged (df1 ++ df2) t k.
Proof. intros Hr. unfold Described.averaged. by rewrite readings_keyless. Qed.

Lemma field_keyless df1 df2 r t k :
  keyless r →
  Described.field (df1 ++ r :: df2) t k = Described.field (df1 ++ df2) t k.
Proof. intros Hr. unfold Described.field. by rewrite averaged_keyless. Qed.

Lemma reports_keyless df1 df2 r r' :
  keyless r →
  Described.reports (df1 ++ r :: df2) r' = Described.reports (df1 ++ df2) r'.
Proof.
  intros Hr. unfold Described.reports, Described.averaged.
  destruct (datetime r'), (parameter r'); try done. by rewrite readings_keyless.
Qed.

Lemma reports_of_keyless df r : keyless r → Described.reports df r = None.
Proof.
  unfold Described.reports. intros [-> | ->]; [done|]. by destruct (datetime r).
Qed.

Lemma latest_in_ext df df' part :
  (∀ r', Described.reports df r' = Described.reports df' r') →
  Described.latest_in df part = Described.latest_in df' part.
Proof.
  intros Hext. induction part as [|x part IH]; [done|]. simpl.
  by rewrite IH, Hext.
Qed.

Lemma latest_in_keyless df part1 part2 r :
  keyless r →
  Described.latest_in df (part1 ++ r :: part2) = Described.latest_in df (part1 ++ part2).
Proof.
  intros Hr. unfold Described.latest_in. rewrite !foldr_app. simpl.
  by rewrite (reports_of_keyless df r Hr).
Qed.

(** X18. A row without a timestamp or without a pollutant, wherever it
    stands, does not change the summary of a table that has other rows. *)
Theorem keyless_row_ignored df1 df2 r :
  keyless r →
  df1 ++ df2 ≠ [] →
  compose_context_summary (df1 ++ r :: df2) = compose_context_summary (df1 ++ df2).
Proof.
  intros Hr Hne. unfold compose_context_summary.
  assert (empty (df1 ++ r :: df2) = false) as -> by (by destruct df1).
  assert (empty (df1 ++ df2) = false) as -> by (by destruct (df1 ++ df2)).
  rewrite !summary_parts_described. unfold Described.latest_timestamp.
  rewrite (latest_in_ext _ (df1 ++ df2)) by (intros; by apply reports_keyless).
  rewrite latest_in_keyless by done.
  destruct (Described.latest_in _ _) as [t|]; [|done].
  unfold tracked. cbn [omap list_omap].
  by rewrite !(field_keyless df1 df2 r), (averaged_keyless df1 df2 r).
Qed.

Lemma readings_at_instant df t k :
  Described.readings (filter (λ r, datetime r = Some t) df) t k = Described.readings df t k.
Proof.
  unfold Described.readings. induction df as [|r df IH]; [done|].
  rewrite filter_cons. csimpl.
  destruct (decide (datetime r = Some t)) as [Hr|Hr]; csimpl; rewrite IH; [done|].
  rewrite decide_False; [done|]. by intros [? _].
Qed.

Lemma reports_at_instant df t r :
  datetime r = Some t →
  Described.reports (filter (λ r, datetime r = Some t) df) r = Described.reports df r.
Proof.
  intros Hr. unfold Described.reports, Described.averaged. rewrite Hr.
  destruct (parameter r); [|done]. by rewrite readings_at_instant.
Qed.

Lemma latest_in_constant df part t :
  (∀ r u, r ∈ part → Described.reports df r = Some u → u = t) →
  (∃ r, r ∈ part ∧ Described.reports df r = Some t) →
  Described.latest_in df part = Some t.
Proof.
  intros Hall Hex. induction part as [|x part IH]; simpl.
  - destruct Hex as (r & Hr & _). by apply elem_of_nil in Hr.
  - destruct (Described.reports df x) as [u|] eqn:Hx.
    + assert (u = t) as -> by (eapply Hall; [apply list_elem_of_here|done]).
      destruct (Described.latest_in df part) as [w|] eqn:Hw; simpl; [|done].
      apply latest_in_Some in Hw as [(r & Hr & Hrep) _].
      assert (w = t) as -> by (eapply Hall; [by apply list_elem_of_further|done]).
      by rewrite Z.max_id.
    + apply IH.
      * intros r u ?. apply Hall. by apply list_elem_of_further.
      * destruct Hex as (r & [->|Hr]%elem_of_cons & Hrep); [congruence|eauto].
Qed.

Lemma latest_at_instant df t :
  Described.latest_timestamp df = Some t →
  Described.latest_timestamp (filter (λ r, datetime r = Some t) df) = Some t.
Proof.
  intros [(r & Hr & Hrep) _]%latest_in_Some.
  pose proof Hrep as [Ht _]%reports_Some.
  apply latest_in_constant.
  - intros r' u [Hr't _]%list_elem_of_filter [Hu _]%reports_Some.
    simpl in Hr't. congruence.
  - exists r. split; [by apply list_elem_of_filter|]. by rewrite reports_at_instant.
Qed.

Lemma summary_parts_at_instant df t :
  Described.latest_timestamp df = Some t →
  summary_parts (filter (λ r, datetime r = Some t) df) = summary_parts df.
Proof.
  intros Ht. rewrite !summary_parts_described, Ht, (latest_at_instant _ _ Ht).
  unfold tracked, Described.field, Described.averaged. cbn [omap list_omap].
  by rewrite !readings_at_instant.
Qed.

(** X19. The summary is that of the rows of the latest timestamp alone:
    dropping every other row leaves it unchanged. *)
Theorem only_latest_timestamp_counts df t :
  Described.latest_timestamp df = Some t →
  compose_context_summary df = compose_context_summary (filter (λ r, datetime r = Some t) df).
Proof.
  intros Ht. pose proof Ht as [(r & Hr & [Hrt _]%reports_Some) _]%latest_in_Some.
  unfold compose_context_summary. rewrite (summary_parts_at_instant _ _ Ht).
  assert (empty df = false) as -> by (destruct df; [by apply elem_of_nil in Hr|done]).
  assert (r ∈ filter (λ r, datetime r = Some t) df) as Hin by (by apply list_elem_of_filter).
  by destruct (filter (λ r, datetime r = Some t) df); [apply elem_of_nil in Hin|].
Qed.

(** X20. Take the latest timestamp of the grouped table, that is the
    latest one at which some pollutant has a non-null average.  When the rows
    of that timestamp have no non-null reading of a tracked pollutant (they
    report another pollutant only, say), the summary is the bare "Unknown"
    header, whatever the timestamps before it hold. *)
Theorem no_tracked_reading_unknown df :
  df ≠ [] →
  (∀ t r, Described.latest_timestamp df = Some t → r ∈ df →
          datetime r = Some t → parameter r ∈ (Some <$> tracked) →
          Float.is_nan (value r) = true) →
  compose_context_summary df = "Latest indicative AQI (by PM2.5): Unknown".
Proof.
  intros Hne Hall. unfold compose_context_summary.
  assert (empty df = false) as -> by (by destruct df).
  rewrite summary_parts_described.
  destruct (Described.latest_timestamp df) as [t|] eqn:Ht; [|done].
  assert (∀ k, k ∈ tracked → Float.is_nan (Described.averaged df t k) = true) as Hnan.
  { intros k Hk. unfold Described.averaged. rewrite <-group_readings.
    apply mean_all_nan, Forall_forall.
    intros v (r & Hr & [Hrt Hrk]%key_of_Some & <-)%elem_of_group.
    apply (Hall t r); [done..|]. rewrite Hrk. by apply list_elem_of_fmap_2. }
  unfold tracked in *. cbn [omap list_omap]. unfold Described.field.
  rewrite !Hnan by (repeat first [apply list_elem_of_here|apply list_elem_of_further]).
  unfold indicative_aqi.
  by rewrite Hnan by (repeat first [apply list_elem_of_here|apply list_elem_of_further]).
Qed.

Lemma summary_parts_first df :
  ∃ h rest, summary_parts df = ("Latest indicative AQI (by PM2.5): " +:+ h) :: rest.
Proof.
  rewrite summary_parts_described.
  destruct (Described.latest_timestamp df); eauto.
Qed.

(** X21. The no-data sentence is the summary of the empty table only. *)
Theorem no_data_only_when_empty df :
  compose_context_summary df = "No recent measurements found." ↔ df = [].
Proof.
  split; [|by intros ->].
  destruct df as [|r df]; [done|]. unfold compose_context_summary. simpl empty. cbv iota.
  destruct (summary_parts_first (r :: df)) as (h & rest & ->).
  intros Heq. apply (f_equal (String.get 0)) in Heq.
  by destruct rest; vm_compute in Heq.
Qed.

Lemma str_app_assoc (a b c : string) : (a +:+ b) +:+ c = a +:+ b +:+ c.
Proof.
  induction a as [|x a IH]; [done|].
  change (String x ((a +:+ b) +:+ c) = String x (a +:+ b +:+ c)). by rewrite IH.
Qed.

Lemma join_contains sep parts p :
  p ∈ parts → Str.contains p (join sep parts).
Proof.
  induction parts as [|q parts IH]; [by intros ?%elem_of_nil|].
  intros [->|Hp]%elem_of_cons.
  - destruct parts as [|q' parts].
    + exists "", "". by rewrite app_empty_r.
    + by exists "", (sep +:+ join sep (q' :: parts)).
  - destruct parts as [|q' parts]; [by apply elem_of_nil in Hp|].
    destruct (IH Hp) as (pre & suf & Heq).
    exists (q +:+ sep +:+ pre), suf.
    change (join sep (q :: q' :: parts)) with (q +:+ sep +:+ join sep (q' :: parts)).
    by rewrite Heq, !str_app_assoc.
Qed.

Lemma contains_prefix needle x s :
  Str.contains (needle +:+ x) s → Str.contains needle s.
Proof.
  intros (pre & suf & ->). exists pre, (x +:+ suf). by rewrite str_app_assoc.
Qed.

Lemma band_some_unknown v :
  indicative_aqi (Some v) = "Unknown" ↔ Float.is_nan v = true.
Proof.
  unfold indicative_aqi. destruct (Float.is_nan v); [done|].
  split; [|done]. by repeat case_match.
Qed.

Lemma band_of_latest df :
  indicative_aqi (latest_vals df !! "pm25") =
  match Described.latest_timestamp df with
  | Some t => indicative_aqi (Some (Described.averaged df t "pm25"))
  | None => "Unknown"
  end.
Proof.
  rewrite latest_vals_spec. destruct (Described.latest_timestamp df) as [t|].
  - apply band_latest.
  - done.
Qed.

(** X22. The summary of a non-empty table shows a PM25 field exactly when
    its band is not "Unknown". *)
Theorem pm25_field_iff_band_known df :
  empty df = false →
  Str.contains "PM25=" (compose_context_summary df) ↔
  indicative_aqi (latest_vals df !! "pm25") ≠ "Unknown".
Proof.
  intros Hdf. rewrite band_of_latest. split.
  - intros Hin. apply (contains_field df "pm25") in Hin as [x Hx];
      [|unfold tracked; apply list_elem_of_here].
    revert Hx. rewrite summary_parts_described.
    destruct (Described.latest_timestamp df) as [t|].
    + intros [Hhd|Hin]%elem_of_cons.
      { apply (tracked_field_not_header "pm25") in Hhd; [done|].
        unfold tracked. apply list_elem_of_here. }
      apply list_elem_of_omap in Hin as (k' & Hk' & Hf). unfold Described.field in Hf.
      destruct (Float.is_nan (Described.averaged df t k')) eqn:Hm; [done|].
      simplify_eq. apply (tracked_field_inj "pm25") in Hf as [-> _];
        [|unfold tracked; apply list_elem_of_here|done].
      rewrite band_some_unknown. congruence.
    + intros [Hhd|Hin]%elem_of_cons; [|by apply elem_of_nil in Hin].
      apply (tracked_field_not_header "pm25") in Hhd; [done|].
      unfold tracked. apply list_elem_of_here.
  - destruct (Described.latest_timestamp df) as [t|] eqn:Ht; [|done].
    rewrite band_some_unknown. intros Hm%not_true_is_false.
    unfold compose_context_summary. rewrite Hdf.
    apply (contains_prefix _ (Float.format_1f (Described.averaged df t "pm25"))).
    apply join_contains. rewrite summary_parts_described, Ht.
    apply list_elem_of_further. unfold tracked. cbn [omap list_omap].
    unfold Described.field at 1. rewrite Hm. apply list_elem_of_here.
Qed.

End summarizer_more.

Lemma keyless_row_ignored_witness :
  keyless More.keyless_row ∧
  [Sample.reading 3600 "pm25" 10.0%float] ++ [] ≠ [] ∧
  compose_context_summary
    ([Sample.reading 3600 "pm25" 10.0%float] ++ More.keyless_row :: []) =
  compose_context_summary ([Sample.reading 3600 "pm25" 10.0%float] ++ []).
Proof.
  split; [by left|]. split; [done|].
  apply (keyless_row_ignored [Sample.reading 3600 "pm25" 10.0%float] [] More.keyless_row);
    [by left|done].
Defined.

Lemma only_latest_timestamp_counts_witness :
  Described.latest_timestamp Sample.two_hours = Some 7200%Z ∧
  compose_context_summary Sample.two_hours =
  compose_context_summary (filter (λ r, datetime r = Some 7200%Z) Sample.two_hours).
Proof.
  split; [by vm_compute|].
  apply (only_latest_timestamp_counts Sample.two_hours 7200%Z). by vm_compute.
Defined.

Lemma no_tracked_reading_unknown_witness :
  More.carbon_monoxide_last ≠ [] ∧
  compose_context_summary More.carbon_monoxide_last =
  "Latest indicative AQI (by PM2.5): Unknown".
Proof.
  split; [done|].
  apply (no_tracked_reading_unknown More.carbon_monoxide_last); [done|].
  intros t r Ht Hr Hrt Hp. vm_compute in Ht. simplify_eq.
  unfold More.carbon_monoxide_last in Hr.
  apply elem_of_cons in Hr as [->|Hr].
  - apply list_elem_of_fmap in Hp as (k & Hk & Hin). simpl in Hk. simplify_eq.
    unfold tracked in Hin.
    repeat (apply elem_of_cons in Hin as [Hin|Hin]; [done|]).
    by apply elem_of_nil in Hin.
  - apply list_elem_of_singleton in Hr as ->. simpl in Hrt. by simplify_eq.
Defined.

Lemma pm25_field_iff_band_known_witness :
  empty Sample.one_timestamp = false ∧
  (Str.contains "PM25=" (compose_context_summary Sample.one_timestamp) ↔
   indicative_aqi (latest_vals Sample.one_timestamp !! "pm25") ≠ "Unknown").
Proof.
  split; [reflexivity|].
  apply (pm25_field_iff_band_known Sample.one_timestamp). reflexivity.
Defined.

(** ** The request *)

Section request_more.

Variable isoformat : Z → string.

(** X23. The query carries a country exactly when the country text is not
    blank, and then stripped of surrounding whitespace, while the city goes
    out as typed; both dates go out as text ending in "Z", and no parameter
    is left a timestamp. *)
Theorem request_params_country city country hours now1 now2 :
  let params := request_params isoformat city country hours now1 now2 in
  params !! "country" =
    (if Str.blank country then None else Some (PStr (Str.strip country))) ∧
  params !! "city" = Some (PStr city) ∧
  params !! "date_from" =
    Some (PStr (isoformat (now1 - hours * nanoseconds_per_hour) +:+ "Z")) ∧
  params !! "date_to" = Some (PStr (isoformat now2 +:+ "Z")) ∧
  (∀ key t, params !! key ≠ Some (PTimestamp t)).
Proof.
  intros params. subst params. unfold request_params.
  destruct (Str.blank country) eqn:Hb.
  - apply strip_empty_blank in Hb as ->. simpl.
    repeat split; try by simplify_map_eq.
    intros key t Hk.
    repeat (apply lookup_insert_Some in Hk as [[??]|[? Hk]]; [congruence|]).
    apply lookup_singleton_Some in Hk as [??]. congruence.
  - assert (Str.truthy (Str.strip country) = true) as ->.
    { destruct (Str.strip country) eqn:Hs; [|done].
      apply strip_empty_blank in Hs. congruence. }
    repeat split; try by simplify_map_eq.
    intros key t Hk.
    repeat (apply lookup_insert_Some in Hk as [[??]|[? Hk]]; [congruence|]).
    apply lookup_singleton_Some in Hk as [??]. congruence.
Qed.

End request_more.
